(** * Shallow embedding of scripts/linters/python_linter.py

    The two lint managers of the module are modelled over a small state
    monad.  The world holds the process's text streams (stream 0 is the
    console, every [python_utils.string_io()] allocates a fresh stream),
    the stream [sys.stdout] currently points to, the log of calls made to
    the external engines (pylint, pycodestyle, isort) and the manager
    object [self] whose methods run.  The engines themselves are black
    boxes: Section variables that return their status and the text they
    write to [sys.stdout]. *)

From Stdlib Require Import List String Ascii Arith Lia ZArith Bool.
From Stdlib Require Import DecimalString.
Import ListNotations.
Open Scope string_scope.
Open Scope list_scope.

(** ** Data model *)

(** The state of a manager object ([PythonLintChecksManager] and
    [ThirdPartyPythonLintChecksManager] have the same attributes). *)
Record Manager := mkManager {
  files_to_lint : list string;
  verbose_mode_enabled : bool
}.

(** Calls to the external engines, with the arguments they receive. *)
Inductive EngineCall :=
| PylintRun (args : list string)
| PycodestyleCheckFiles (config_file : string) (paths : list string)
| IsortSortImports (filepath : string).

Record World := mkWorld {
  streams : nat -> string;   (* contents of every text stream *)
  sys_stdout : nat;          (* the stream sys.stdout points to *)
  next_stream : nat;         (* next fresh stream id *)
  engine_log : list EngineCall;
  self : Manager
}.

Definition console : nat := 0.

(** ** A state monad over [World] *)

Definition M (A : Type) : Type := World -> A * World.

Definition ret {A} (a : A) : M A := fun w => (a, w).

Definition bind {A B} (m : M A) (k : A -> M B) : M B :=
  fun w => let (a, w') := m w in k a w'.

Notation "x <- m ;; k" := (bind m (fun x => k))
  (at level 61, m at next level, right associativity).
Notation "m ;;; k" := (bind m (fun _ => k))
  (at level 61, right associativity).

Definition get_self : M Manager := fun w => (self w, w).

Definition update_stream (st : nat -> string) (id : nat) (s : string)
  : nat -> string :=
  fun k => if Nat.eqb k id then s else st k.

(** Writing text to whatever [sys.stdout] currently is. *)
Definition write (s : string) : M unit :=
  fun w => (tt, mkWorld
    (update_stream (streams w) (sys_stdout w)
       (String.append (streams w (sys_stdout w)) s))
    (sys_stdout w) (next_stream w) (engine_log w) (self w)).

(** [python_utils.PRINT]: print with a trailing newline. *)
Definition PRINT (s : string) : M unit :=
  write (String.append s (String (ascii_of_nat 10) EmptyString)).

(** [python_utils.string_io()]: a fresh, empty in-memory stream. *)
Definition string_io : M nat :=
  fun w => (next_stream w, mkWorld
    (update_stream (streams w) (next_stream w) EmptyString)
    (sys_stdout w) (S (next_stream w)) (engine_log w) (self w)).

(** [StringIO.getvalue()]: everything written to the stream so far. *)
Definition getvalue (id : nat) : M string := fun w => (streams w id, w).

Definition set_sys_stdout (id : nat) : M unit :=
  fun w => (tt, mkWorld (streams w) id (next_stream w) (engine_log w) (self w)).

Definition get_sys_stdout : M nat := fun w => (sys_stdout w, w).

(** Modelled from the spec: [linter_utils.redirect_stdout] (linter_utils.py
    is not part of the sources).  The spec: a redirect target is established
    before the call and the original destination is reinstated on exit. *)
Definition redirect_stdout {A} (target : nat) (body : M A) : M A :=
  old <- get_sys_stdout ;;
  set_sys_stdout target ;;;
  a <- body ;;
  set_sys_stdout old ;;;
  ret a.

Definition log_call (c : EngineCall) : M unit :=
  fun w => (tt, mkWorld (streams w) (sys_stdout w) (next_stream w)
                        (engine_log w ++ [c]) (self w)).

(** Python's [str % int] for the naturals the module prints. *)
Definition str_of_nat (n : nat) : string :=
  NilZero.string_of_uint (Nat.to_uint n).

(** Python slicing [l[a:b]] for [0 <= a <= b]. *)
Definition py_slice {A} (l : list A) (a b : nat) : list A :=
  firstn (b - a) (skipn a l).

Definition _MESSAGE_TYPE_SUCCESS : string := "SUCCESS".
Definition _MESSAGE_TYPE_FAILED : string := "FAILED".

(** ** The exclusion pattern of the Python 3 check

    [re.match(r'^.*python_utils.*\.py$', file_name)]: [.] matches any
    character but a newline and [$] matches at the end of the string or
    just before a newline that ends it.  So the name matches when it is
    [t] or [t ++ "\n"] for a newline-free [t] of the form
    [a ++ "python_utils" ++ b ++ ".py"]. *)

Definition newline : ascii := ascii_of_nat 10.

Fixpoint has_newline (s : string) : bool :=
  match s with
  | EmptyString => false
  | String c s' => Ascii.eqb c newline || has_newline s'
  end.

Fixpoint contains (pat s : string) : bool :=
  String.prefix pat s ||
  match s with
  | EmptyString => false
  | String _ s' => contains pat s'
  end.

Definition ends_with (suffix s : string) : bool :=
  Nat.leb (String.length suffix) (String.length s) &&
  String.eqb (substring (String.length s - String.length suffix)
                        (String.length suffix) s) suffix.

(** [t] matches [.*python_utils.*\.py] entirely. *)
Definition match_core (t : string) : bool :=
  negb (has_newline t) && ends_with ".py" t &&
  contains "python_utils" (substring 0 (String.length t - 3) t).

Definition re_match_python_utils (s : string) : bool :=
  match_core s ||
  (ends_with (String newline EmptyString) s &&
   match_core (substring 0 (String.length s - 1) s)).

Section Engines.

(** [lint.Run(args, exit=False).linter.msg_status], with the text pylint
    writes to [sys.stdout] during the run. *)
Variable pylint_Run : list string -> Z * string.
(** [pycodestyle.StyleGuide(config_file=c).check_files(paths=p).get_count()],
    with the text pycodestyle writes to [sys.stdout]. *)
Variable pycodestyle_Check : string -> list string -> nat * string.
(** [isort.SortImports(p, check=True, show_diff=True).incorrectly_sorted],
    with the text isort writes to [sys.stdout]. *)
Variable isort_Check : string -> bool * string.
(** ['%.1f' % (time.time() - start_time)]. *)
Variable elapsed_secs : string.
(** [os.getcwd()]. *)
Variable cwd : string.

Definition lint_Run (args : list string) : M Z :=
  log_call (PylintRun args) ;;;
  let (msg_status, out) := pylint_Run args in
  write out ;;;
  ret msg_status.

Definition pycodestyle_check_files (config_file : string) (paths : list string)
  : M nat :=
  log_call (PycodestyleCheckFiles config_file paths) ;;;
  let (count, out) := pycodestyle_Check config_file paths in
  write out ;;;
  ret count.

Definition isort_SortImports (filepath : string) : M bool :=
  log_call (IsortSortImports filepath) ;;;
  let (incorrectly_sorted, out) := isort_Check filepath in
  write out ;;;
  ret incorrectly_sorted.

(** *** [PythonLintChecksManager] *)

Fixpoint import_order_loop (files_to_check : list string) (failed : bool)
  : M bool :=
  match files_to_check with
  | [] => ret failed
  | filepath :: rest =>
      incorrectly_sorted <- isort_SortImports filepath ;;
      failed' <- (if incorrectly_sorted then PRINT "" ;;; ret true
                  else ret failed) ;;
      import_order_loop rest failed'
  end.

Definition _check_import_order : M (list string) :=
  me <- get_self ;;
  (if verbose_mode_enabled me then
     PRINT "Starting import-order checks" ;;;
     PRINT "----------------------------------------"
   else ret tt) ;;;
  let summary_messages := @nil string in
  let files_to_check := files_to_lint me in
  stdout <- get_sys_stdout ;;
  redirect_stdout stdout (
    failed <- import_order_loop files_to_check false ;;
    PRINT "" ;;;
    if failed then
      let summary_message := String.append _MESSAGE_TYPE_FAILED
        "   Import order checks failed, file imports should be alphabetized, see affect files above." in
      PRINT summary_message ;;;
      ret (summary_messages ++ [summary_message])
    else
      let summary_message := String.append _MESSAGE_TYPE_SUCCESS
        "   Import order checks passed" in
      PRINT summary_message ;;;
      ret (summary_messages ++ [summary_message])).

Definition PythonLintChecksManager_perform_all_lint_checks : M (list string) :=
  me <- get_self ;;
  match files_to_lint me with
  | [] =>
      PRINT "" ;;;
      PRINT "There are no Python files to lint." ;;;
      ret []
  | _ => _check_import_order
  end.

(** *** [ThirdPartyPythonLintChecksManager] *)

Definition _batch_size : nat := 50.

(** The [while current_batch_start_index < len(files_to_lint)] loop of
    [_lint_py_files].  Every round advances the start index by at least
    one, so [List.length files_to_lint] rounds of fuel always suffice (see
    [lint_py_files_loop_spec] below).  Returns the summary messages and
    [are_there_errors]. *)
Fixpoint lint_py_files_loop (fuel : nat) (files_to_lint : list string)
    (verbose : bool) (config_pylint config_pycodestyle : string)
    (stdout : nat) (current_batch_start_index : nat)
    (summary_messages : list string) (are_there_errors : bool)
  : M (list string * bool) :=
  match fuel with
  | O => ret (summary_messages, are_there_errors)
  | S fuel' =>
    if Nat.ltb current_batch_start_index (List.length files_to_lint) then
      let current_batch_end_index :=
        Nat.min (current_batch_start_index + _batch_size)
                (List.length files_to_lint) in
      let current_files_to_lint :=
        py_slice files_to_lint current_batch_start_index
                 current_batch_end_index in
      (if verbose then
         PRINT (String.append "Linting Python files "
                  (String.append (str_of_nat (current_batch_start_index + 1))
                     (String.append " to "
                        (String.append (str_of_nat current_batch_end_index)
                           "..."))))
       else ret tt) ;;;
      r <- redirect_stdout stdout (
             msg_status <- lint_Run (current_files_to_lint ++ [config_pylint]) ;;
             count <- pycodestyle_check_files config_pycodestyle
                                              current_files_to_lint ;;
             ret (msg_status, count)) ;;
      acc <- (if negb (Z.eqb (fst r) 0) || negb (Nat.eqb (snd r) 0) then
                summary_message <- getvalue stdout ;;
                PRINT summary_message ;;;
                ret (summary_messages ++ [summary_message], true)
              else ret (summary_messages, are_there_errors)) ;;
      lint_py_files_loop fuel' files_to_lint verbose config_pylint
        config_pycodestyle stdout current_batch_end_index (fst acc) (snd acc)
    else ret (summary_messages, are_there_errors)
  end.

Definition _lint_py_files (config_pylint config_pycodestyle : string)
  : M (list string) :=
  me <- get_self ;;
  let files_to_lint := files_to_lint me in
  let num_py_files := List.length files_to_lint in
  PRINT (String.append "Linting "
           (String.append (str_of_nat num_py_files) " Python files")) ;;;
  stdout <- string_io ;;
  r <- lint_py_files_loop (List.length files_to_lint) files_to_lint
         (verbose_mode_enabled me) config_pylint config_pycodestyle
         stdout 0 [] false ;;
  let summary_message :=
    if snd r then String.append _MESSAGE_TYPE_FAILED "    Python linting failed"
    else String.append _MESSAGE_TYPE_SUCCESS
           (String.append "   "
              (String.append (str_of_nat num_py_files)
                 (String.append " Python files linted ("
                    (String.append elapsed_secs " secs)")))) in
  PRINT summary_message ;;;
  PRINT "Python linting finished." ;;;
  ret (fst r ++ [summary_message]).

(** The batch loop of [_lint_py_files_for_python3_compatibility]. *)
Fixpoint py3_loop (fuel : nat) (files : list string) (verbose : bool)
    (stdout : nat) (current_batch_start_index : nat)
    (summary_messages : list string) (any_errors : bool)
  : M (list string * bool) :=
  match fuel with
  | O => ret (summary_messages, any_errors)
  | S fuel' =>
    if Nat.ltb current_batch_start_index (List.length files) then
      let current_batch_end_index :=
        Nat.min (current_batch_start_index + _batch_size) (List.length files) in
      let current_files_to_lint :=
        py_slice files current_batch_start_index current_batch_end_index in
      (if verbose then
         PRINT (String.append
                  "Linting Python files for Python 3 compatibility "
                  (String.append (str_of_nat (current_batch_start_index + 1))
                     (String.append " to "
                        (String.append (str_of_nat current_batch_end_index)
                           ".."))))
       else ret tt) ;;;
      msg_status <- redirect_stdout stdout (
             PRINT "Messages for Python 3 support:" ;;;
             lint_Run (current_files_to_lint ++ ["--py3k"])) ;;
      acc <- (if negb (Z.eqb msg_status 0) then
                summary_message <- getvalue stdout ;;
                PRINT summary_message ;;;
                ret (summary_messages ++ [summary_message], true)
              else ret (summary_messages, any_errors)) ;;
      py3_loop fuel' files verbose stdout current_batch_end_index
        (fst acc) (snd acc)
    else ret (summary_messages, any_errors)
  end.

Definition files_to_lint_for_python3_compatibility (files : list string)
  : list string :=
  filter (fun file_name => negb (re_match_python_utils file_name)) files.

Definition _lint_py_files_for_python3_compatibility : M (list string) :=
  me <- get_self ;;
  let files_to_lint := files_to_lint me in
  stdout <- string_io ;;
  let files3 := files_to_lint_for_python3_compatibility files_to_lint in
  let num_py_files := List.length files3 in
  match files3 with
  | [] =>
      PRINT "" ;;;
      PRINT "There are no Python files to lint for Python 3 compatibility." ;;;
      ret []
  | _ =>
      PRINT (String.append "Linting "
               (String.append (str_of_nat num_py_files)
                  " Python files for Python 3 compatibility.")) ;;;
      r <- py3_loop (List.length files3) files3 (verbose_mode_enabled me)
             stdout 0 [] false ;;
      let summary_message :=
        if snd r then
          String.append _MESSAGE_TYPE_FAILED
            "    Python linting for Python 3 compatibility failed"
        else String.append _MESSAGE_TYPE_SUCCESS
           (String.append "   "
              (String.append (str_of_nat num_py_files)
                 (String.append
                    " Python files linted for Python 3 compatibility ("
                    (String.append elapsed_secs " secs)")))) in
      PRINT summary_message ;;;
      PRINT "Python linting for Python 3 compatibility finished." ;;;
      ret (fst r ++ [summary_message])
  end.

(** [os.path.join(a, b)] for a relative [b]. *)
Definition os_path_join (a b : string) : string :=
  if (a =? EmptyString)%string || ends_with "/" a then String.append a b
  else String.append a (String.append "/" b).

Definition ThirdPartyPythonLintChecksManager_perform_all_lint_checks
  : M (list string) :=
  let pylintrc_path := os_path_join cwd ".pylintrc" in
  let config_pylint := String.append "--rcfile=" pylintrc_path in
  let config_pycodestyle := os_path_join cwd "tox.ini" in
  let all_messages := @nil string in
  me <- get_self ;;
  match files_to_lint me with
  | [] =>
      PRINT "" ;;;
      PRINT "There are no Python files to lint." ;;;
      ret []
  | _ =>
      m1 <- _lint_py_files config_pylint config_pycodestyle ;;
      m2 <- _lint_py_files_for_python3_compatibility ;;
      ret (all_messages ++ m1 ++ m2)
  end.

(** ** Derived descriptions used in the statements *)

(** Whether a batch of the style/convention check fails: the condition
    [pylinter.msg_status != 0 or pycodestyle_report.get_count() != 0]. *)
Definition style_batch_failed (config_pylint config_pycodestyle : string)
    (batch : list string) : bool :=
  negb (Z.eqb (fst (pylint_Run (batch ++ [config_pylint]))) 0) ||
  negb (Nat.eqb (fst (pycodestyle_Check config_pycodestyle batch)) 0).

(** The engine calls one batch of the style/convention check makes. *)
Definition style_calls (config_pylint config_pycodestyle : string)
    (batch : list string) : list EngineCall :=
  [PylintRun (batch ++ [config_pylint]);
   PycodestyleCheckFiles config_pycodestyle batch].

Definition py3_batch_failed (batch : list string) : bool :=
  negb (Z.eqb (fst (pylint_Run (batch ++ ["--py3k"]))) 0).

(** The text [_check_import_order] sends to [sys.stdout] for its files. *)
Definition import_order_output (files : list string) : string :=
  fold_right String.append EmptyString
    (map (fun f => String.append (snd (isort_Check f))
                     (if fst (isort_Check f) then String newline EmptyString
                      else EmptyString)) files).

End Engines.

(** The [(start, end)] index pairs the batch loops visit, for a given
    amount of fuel, starting index and list length. *)
Fixpoint batch_bounds (fuel start len : nat) : list (nat * nat) :=
  match fuel with
  | O => []
  | S fuel' =>
      if Nat.ltb start len then
        let e := Nat.min (start + _batch_size) len in
        (start, e) :: batch_bounds fuel' e len
      else []
  end.

Definition batches_from (fuel start : nat) (files : list string)
  : list (list string) :=
  map (fun p => py_slice files (fst p) (snd p))
      (batch_bounds fuel start (List.length files)).

(** The batches of a whole run. *)
Definition batches (files : list string) : list (list string) :=
  batches_from (List.length files) 0 files.

(** The verdict lines. *)
Definition lint_failed_line : string :=
  String.append _MESSAGE_TYPE_FAILED "    Python linting failed".
Definition lint_success_line (num_py_files : nat) (elapsed : string) : string :=
  String.append _MESSAGE_TYPE_SUCCESS
    (String.append "   "
       (String.append (str_of_nat num_py_files)
          (String.append " Python files linted ("
             (String.append elapsed " secs)")))).
Definition py3_failed_line : string :=
  String.append _MESSAGE_TYPE_FAILED
    "    Python linting for Python 3 compatibility failed".
Definition py3_success_line (num_py_files : nat) (elapsed : string) : string :=
  String.append _MESSAGE_TYPE_SUCCESS
    (String.append "   "
       (String.append (str_of_nat num_py_files)
          (String.append " Python files linted for Python 3 compatibility ("
             (String.append elapsed " secs)")))).
Definition import_order_failed_line : string :=
  String.append _MESSAGE_TYPE_FAILED
    "   Import order checks failed, file imports should be alphabetized, see affect files above.".
Definition import_order_success_line : string :=
  String.append _MESSAGE_TYPE_SUCCESS "   Import order checks passed".

Definition nl : string := String newline EmptyString.

(** What [_check_import_order] prints first in verbose mode. *)
Definition import_order_header : string :=
  String.append "Starting import-order checks" (String.append nl
    (String.append "----------------------------------------" nl)).

(** What [perform_all_lint_checks] prints when there is nothing to lint. *)
Definition no_files_notice : string :=
  String.append nl (String.append "There are no Python files to lint." nl).

(** The summary messages the batch loops keep, given how they fail and
    what they print: a failing batch keeps the whole content of the
    capture buffer, i.e. the text of every batch up to and including it
    ([acc] is what the buffer held before the first batch). *)
Fixpoint cumulative_reports (failed : list string -> bool)
    (text : list string -> string) (acc : string) (bs : list (list string))
  : list string :=
  match bs with
  | [] => []
  | b :: rest =>
      let acc' := String.append acc (text b) in
      (if failed b then [acc'] else []) ++ cumulative_reports failed text acc' rest
  end.

(** What one batch of the style/convention check writes into the capture
    buffer: pylint's output, then pycodestyle's. *)
Definition style_batch_text (pylint_Run : list string -> Z * string)
    (pycodestyle_Check : string -> list string -> nat * string)
    (config_pylint config_pycodestyle : string) (b : list string) : string :=
  String.append (snd (pylint_Run (b ++ [config_pylint])))
                (snd (pycodestyle_Check config_pycodestyle b)).

(** What one batch of the Python 3 check writes into the capture buffer. *)
Definition py3_batch_text (pylint_Run : list string -> Z * string)
    (b : list string) : string :=
  String.append "Messages for Python 3 support:"
    (String.append nl (snd (pylint_Run (b ++ ["--py3k"])))).

(** ** Module initialisation: [sys.path.insert(1, path)] *)

(** Python's [list.insert(i, x)] for [i >= 0]: [x] goes before index [i],
    or at the end when [i] is past it. *)
Definition py_list_insert {A} (l : list A) (i : nat) (x : A) : list A :=
  firstn i l ++ x :: skipn i l.

(** [for path in _PATHS_TO_INSERT: sys.path.insert(1, path)], with
    [_PATHS_TO_INSERT = [PYLINT_PATH, PYCODESTYLE_PATH, PYLINT_QUOTES_PATH]]. *)
Definition insert_tool_paths (PYLINT_PATH PYCODESTYLE_PATH PYLINT_QUOTES_PATH : string)
    (sys_path : list string) : list string :=
  let _PATHS_TO_INSERT := [PYLINT_PATH; PYCODESTYLE_PATH; PYLINT_QUOTES_PATH] in
  fold_left (fun sp path => py_list_insert sp 1 path) _PATHS_TO_INSERT sys_path.

(** What printing the given lines one after the other writes. *)
Fixpoint printed_lines (lines : list string) : string :=
  match lines with
  | [] => EmptyString
  | m :: rest => String.append m (String.append nl (printed_lines rest))
  end.

(** An operation leaves [sys.stdout] pointing where it did, allocates
    streams only upwards, and writes to no stream that existed before it
    ran except the one [sys.stdout] points to. *)
Definition keeps_other_streams {A} (op : M A) (w : World) : Prop :=
  let w' := snd (op w) in
  sys_stdout w' = sys_stdout w
  /\ next_stream w <= next_stream w'
  /\ forall k, k < next_stream w -> k <> sys_stdout w -> streams w' k = streams w k.

(** ** Concrete engines and inputs, for evaluating the model *)

Definition sample_files (n : nat) : list string :=
  map (fun i => String.append "f" (String.append (str_of_nat i) ".py"))
      (seq 1 n).

(** A pylint that reports an error on a batch exactly when it contains
    one of the [bad] files, and prints its rating otherwise. *)
Definition sample_error : string :=
  "E0602: Undefined variable 'x' (undefined-variable)".
Definition sample_rating : string := "Your code has been rated at 10.00/10".

Definition sample_pylint (bad : list string) (args : list string) : Z * string :=
  if existsb (fun a => existsb (String.eqb a) bad) args
  then (1%Z, String.append sample_error nl)
  else (0%Z, String.append sample_rating nl).

Definition sample_pycodestyle (config_file : string) (paths : list string)
  : nat * string := (0, EmptyString).

Definition sample_isort (bad : list string) (filepath : string) : bool * string :=
  if existsb (String.eqb filepath) bad
  then (true, String.append "ERROR: "
                (String.append filepath
                   (String.append " Imports are incorrectly sorted." nl)))
  else (false, EmptyString).

Definition initial_world (files : list string) (verbose : bool) : World :=
  mkWorld (fun _ => EmptyString) console 1 [] (mkManager files verbose).

(** * Proofs *)

(** ** The batches partition the file list *)

Module Batching.

Lemma batch_bounds_unfold fuel start len :
  batch_bounds (S fuel) start len =
  if Nat.ltb start len then
    (start, Nat.min (start + _batch_size) len)
      :: batch_bounds fuel (Nat.min (start + _batch_size) len) len
  else [].
Proof. reflexivity. Qed.

Lemma batches_from_concat fuel : forall start files,
  start <= List.length files -> List.length files - start <= fuel ->
  List.concat (batches_from fuel start files) = skipn start files.
Proof.
  unfold batches_from.
  induction fuel as [|fuel IH]; intros start files Hle Hfuel.
  - simpl. symmetry. apply skipn_all2. lia.
  - rewrite batch_bounds_unfold.
    destruct (Nat.ltb_spec start (List.length files)) as [Hlt|Hge].
    + cbn [map List.concat fst snd]. unfold _batch_size in *.
      rewrite IH by lia. unfold py_slice.
      replace (Nat.min (start + 50) (List.length files))
        with ((Nat.min (start + 50) (List.length files) - start) + start)
        at 2 by lia.
      rewrite <- skipn_skipn. apply firstn_skipn.
    + simpl. symmetry. apply skipn_all2. lia.
Qed.

Lemma batches_from_sizes fuel : forall start files,
  Forall (fun b => 1 <= List.length b <= _batch_size)
         (batches_from fuel start files).
Proof.
  unfold batches_from.
  induction fuel as [|fuel IH]; intros start files.
  - constructor.
  - rewrite batch_bounds_unfold.
    destruct (Nat.ltb_spec start (List.length files)) as [Hlt|Hge].
    + cbn [map fst snd]. constructor; [|apply IH].
      unfold py_slice, _batch_size in *.
      rewrite length_firstn, length_skipn. lia.
    + constructor.
Qed.

Lemma batch_bounds_length fuel : forall start len,
  start <= len -> len - start <= fuel ->
  List.length (batch_bounds fuel start len) =
  (len - start + _batch_size - 1) / _batch_size.
Proof.
  unfold _batch_size.
  induction fuel as [|fuel IH]; intros start len Hle Hfuel.
  - simpl. replace (len - start) with 0 by lia. reflexivity.
  - rewrite batch_bounds_unfold.
    destruct (Nat.ltb_spec start len) as [Hlt|Hge].
    + cbn [List.length]. unfold _batch_size.
      rewrite IH by lia.
      destruct (Nat.le_gt_cases (start + 50) len) as [Hfull|Hpart].
      * replace (Nat.min (start + 50) len) with (start + 50) by lia.
        replace (len - start + 50 - 1) with ((len - (start + 50) + 50 - 1) + 1 * 50)
          by lia.
        rewrite Nat.div_add by lia. lia.
      * replace (Nat.min (start + 50) len) with len by lia.
        rewrite Nat.sub_diag. change ((0 + 50 - 1) / 50) with 0.
        apply (Nat.div_unique _ _ 1 (len - start - 1)); lia.
    + simpl. replace (len - start) with 0 by lia. reflexivity.
Qed.

Lemma batches_concat files : List.concat (batches files) = files.
Proof.
  unfold batches. rewrite batches_from_concat by lia. reflexivity.
Qed.

Lemma batches_sizes files :
  Forall (fun b => 1 <= List.length b <= _batch_size) (batches files).
Proof. apply batches_from_sizes. Qed.

Lemma batches_length files :
  List.length (batches files) =
  (List.length files + _batch_size - 1) / _batch_size.
Proof.
  unfold batches, batches_from. rewrite length_map.
  rewrite batch_bounds_length by lia. rewrite Nat.sub_0_r. reflexivity.
Qed.

End Batching.

(** ** What the batch loops do *)

Module Loops.
Import Batching.

Section LoopFacts.

Variable pylint_Run : list string -> Z * string.
Variable pycodestyle_Check : string -> list string -> nat * string.

Lemma batches_from_unfold fuel start files :
  Nat.ltb start (List.length files) = true ->
  batches_from (S fuel) start files =
  py_slice files start (Nat.min (start + _batch_size) (List.length files))
  :: batches_from fuel (Nat.min (start + _batch_size) (List.length files)) files.
Proof.
  intros H. unfold batches_from. rewrite batch_bounds_unfold, H. reflexivity.
Qed.

Lemma batches_from_stop fuel start files :
  Nat.ltb start (List.length files) = false ->
  batches_from fuel start files = [].
Proof.
  intros H. unfold batches_from. destruct fuel; [reflexivity|].
  rewrite batch_bounds_unfold, H. reflexivity.
Qed.

Ltac run_monad :=
  unfold bind, ret, redirect_stdout, lint_Run, pycodestyle_check_files,
    log_call, get_sys_stdout, set_sys_stdout, getvalue, PRINT, write in *;
  cbn [fst snd engine_log self sys_stdout streams next_stream] in *.

Lemma lint_py_files_loop_spec fuel : forall files verbose cp cc stdout start
    msgs errs w r w',
  lint_py_files_loop pylint_Run pycodestyle_Check fuel files verbose cp cc
    stdout start msgs errs w = (r, w') ->
  let bs := batches_from fuel start files in
  engine_log w' =
    engine_log w ++ flat_map (style_calls cp cc) bs
  /\ self w' = self w
  /\ snd r = errs || existsb (style_batch_failed pylint_Run pycodestyle_Check cp cc) bs
  /\ exists retained, fst r = msgs ++ retained /\
       List.length retained =
       List.length (filter (style_batch_failed pylint_Run pycodestyle_Check cp cc) bs).
Proof.
  induction fuel as [|fuel IH];
    intros files verbose cp cc stdout start msgs errs w r w' E bs.
  - cbn in E. injection E as <- <-. subst bs. unfold batches_from. cbn.
    rewrite app_nil_r, orb_false_r.
    repeat split; [].
    exists []. rewrite app_nil_r. split; reflexivity.
  - subst bs. cbn [lint_py_files_loop] in E.
    destruct (Nat.ltb start (List.length files)) eqn:Hlt.
    2:{ injection E as <- <-. rewrite batches_from_stop by exact Hlt. cbn.
        rewrite app_nil_r, orb_false_r. repeat split; [].
        exists []. rewrite app_nil_r. split; reflexivity. }
    rewrite batches_from_unfold by exact Hlt.
    set (e := Nat.min (start + _batch_size) (List.length files)) in *.
    set (b := py_slice files start e) in *.
    cbn [flat_map existsb filter].
    destruct (pylint_Run (b ++ [cp])) as [st out] eqn:Hp.
    destruct (pycodestyle_Check cc b) as [count out2] eqn:Hc.
    assert (Hfb : style_batch_failed pylint_Run pycodestyle_Check cp cc b =
                  negb (st =? 0)%Z || negb (Nat.eqb count 0))
      by (unfold style_batch_failed; rewrite Hp, Hc; reflexivity).
    rewrite Hfb. unfold style_calls at 1.
    destruct verbose; run_monad; rewrite ?Hp, ?Hc in E; cbn in E;
    destruct (negb (st =? 0)%Z || negb (Nat.eqb count 0)) eqn:Hf;
    cbn in E; apply IH in E as (Hlog & Hself & Herr & retained & Hret & Hlen);
    cbn in Hlog, Hself, Herr, Hret;
    (split; [rewrite Hlog, <- !app_assoc; reflexivity|]);
    (split; [exact Hself|]);
    (split; [rewrite Herr; destruct errs; reflexivity|]);
    eexists; (split;
    [ rewrite Hret, <- ?app_assoc; reflexivity
    | cbn [List.length app]; lia ]).
Qed.

Lemma py3_loop_spec fuel : forall files verbose stdout start msgs errs w r w',
  py3_loop pylint_Run fuel files verbose stdout start msgs errs w = (r, w') ->
  let bs := batches_from fuel start files in
  engine_log w' =
    engine_log w ++ map (fun b => PylintRun (b ++ ["--py3k"])) bs
  /\ self w' = self w
  /\ snd r = errs || existsb (py3_batch_failed pylint_Run) bs
  /\ exists retained, fst r = msgs ++ retained /\
       List.length retained =
       List.length (filter (py3_batch_failed pylint_Run) bs).
Proof.
  induction fuel as [|fuel IH];
    intros files verbose stdout start msgs errs w r w' E bs.
  - cbn in E. injection E as <- <-. subst bs. unfold batches_from. cbn.
    rewrite app_nil_r, orb_false_r.
    repeat split; [].
    exists []. rewrite app_nil_r. split; reflexivity.
  - subst bs. cbn [py3_loop] in E.
    destruct (Nat.ltb start (List.length files)) eqn:Hlt.
    2:{ injection E as <- <-. rewrite batches_from_stop by exact Hlt. cbn.
        rewrite app_nil_r, orb_false_r. repeat split; [].
        exists []. rewrite app_nil_r. split; reflexivity. }
    rewrite batches_from_unfold by exact Hlt.
    set (e := Nat.min (start + _batch_size) (List.length files)) in *.
    set (b := py_slice files start e) in *.
    cbn [map existsb filter].
    destruct (pylint_Run (b ++ ["--py3k"])) as [st out] eqn:Hp.
    assert (Hfb : py3_batch_failed pylint_Run b = negb (st =? 0)%Z)
      by (unfold py3_batch_failed; rewrite Hp; reflexivity).
    rewrite Hfb.
    destruct verbose; run_monad; rewrite ?Hp in E; cbn in E;
    destruct (negb (st =? 0)%Z) eqn:Hf;
    cbn in E; apply IH in E as (Hlog & Hself & Herr & retained & Hret & Hlen);
    cbn in Hlog, Hself, Herr, Hret;
    (split; [rewrite Hlog, <- !app_assoc; reflexivity|]);
    (split; [exact Hself|]);
    (split; [rewrite Herr; destruct errs; reflexivity|]);
    eexists; (split;
    [ rewrite Hret, <- ?app_assoc; reflexivity
    | cbn [List.length app]; lia ]).
Qed.

End LoopFacts.

Lemma str_app_assoc (a b c : string) :
  String.append a (String.append b c) = String.append (String.append a b) c.
Proof.
  induction a as [|x a IH]; cbn; [reflexivity|]. rewrite IH. reflexivity.
Qed.

Lemma str_app_nil (a : string) : String.append a EmptyString = a.
Proof.
  induction a as [|x a IH]; cbn; [reflexivity|]. rewrite IH. reflexivity.
Qed.

Lemma update_stream_same st id s : update_stream st id s id = s.
Proof. unfold update_stream. rewrite Nat.eqb_refl. reflexivity. Qed.

Section ImportOrder.

Variable isort_Check : string -> bool * string.

Lemma import_order_loop_spec files : forall failed w r w',
  import_order_loop isort_Check files failed w = (r, w') ->
  engine_log w' = engine_log w ++ map IsortSortImports files
  /\ self w' = self w
  /\ sys_stdout w' = sys_stdout w
  /\ r = failed || existsb (fun f => fst (isort_Check f)) files
  /\ streams w' (sys_stdout w) =
     String.append (streams w (sys_stdout w))
                   (import_order_output isort_Check files).
Proof.
  induction files as [|f files IH]; intros failed w r w' E.
  - cbn in E. injection E as <- <-. cbn.
    rewrite app_nil_r, orb_false_r, str_app_nil. repeat split.
  - cbn [import_order_loop] in E.
    unfold bind, ret, isort_SortImports, log_call, PRINT, write in E.
    destruct (isort_Check f) as [inc out] eqn:Hi.
    cbn in E.
    destruct inc; cbn in E; apply IH in E as (Hlog & Hself & Hout & Hr & Hs);
      cbn in Hlog, Hself, Hout, Hr, Hs;
      rewrite ?update_stream_same in Hs;
      (split; [rewrite Hlog, <- app_assoc; reflexivity|]);
      (split; [exact Hself|]);
      (split; [exact Hout|]);
      (split; [rewrite Hr; cbn; rewrite Hi; cbn;
               destruct failed; reflexivity|]);
      rewrite Hs; unfold import_order_output; cbn [map fold_right];
      rewrite Hi; cbn [fst snd]; rewrite ?str_app_nil, !str_app_assoc;
      reflexivity.
Qed.

End ImportOrder.
End Loops.

(** ** What each lint operation does, as a whole *)

Module Runs.
Import Batching Loops.

Section RunFacts.

Variable pylint_Run : list string -> Z * string.
Variable pycodestyle_Check : string -> list string -> nat * string.
Variable isort_Check : string -> bool * string.
Variable elapsed_secs : string.
Variable cwd : string.

Lemma lint_py_files_spec cp cc w :
  let r := _lint_py_files pylint_Run pycodestyle_Check elapsed_secs cp cc w in
  let files := files_to_lint (self w) in
  let bs := batches files in
  engine_log (snd r) = engine_log w ++ flat_map (style_calls cp cc) bs
  /\ self (snd r) = self w
  /\ exists retained, fst r =
       retained ++
       [if existsb (style_batch_failed pylint_Run pycodestyle_Check cp cc) bs
        then lint_failed_line
        else lint_success_line (List.length files) elapsed_secs]
     /\ List.length retained =
        List.length (filter (style_batch_failed pylint_Run pycodestyle_Check cp cc) bs).
Proof.
  intros r files bs. subst r.
  unfold _lint_py_files, bind, get_self, string_io, PRINT, write, ret.
  cbn [fst snd self engine_log streams sys_stdout next_stream].
  match goal with
  | |- context [lint_py_files_loop ?a ?b ?c ?d ?e ?f ?g ?h ?i ?j ?k ?wl] =>
      destruct (lint_py_files_loop a b c d e f g h i j k wl) as [res wl'] eqn:E
  end.
  apply lint_py_files_loop_spec in E as (Hlog & Hself & Herr & retained & Hret & Hlen).
  cbn [fst snd self engine_log] in *. fold (batches (files_to_lint (self w))) in *.
  split; [exact Hlog|]. split; [exact Hself|].
  exists retained. rewrite Hret, Herr. split; [reflexivity | exact Hlen].
Qed.

Lemma py3_spec w :
  let r := _lint_py_files_for_python3_compatibility pylint_Run elapsed_secs w in
  let files3 := files_to_lint_for_python3_compatibility (files_to_lint (self w)) in
  let bs := batches files3 in
  self (snd r) = self w
  /\ (files3 = [] -> fst r = [] /\ engine_log (snd r) = engine_log w)
  /\ (files3 <> [] ->
      engine_log (snd r) =
        engine_log w ++ map (fun b => PylintRun (b ++ ["--py3k"])) bs
      /\ exists retained, fst r =
           retained ++
           [if existsb (py3_batch_failed pylint_Run) bs
            then py3_failed_line
            else py3_success_line (List.length files3) elapsed_secs]
         /\ List.length retained =
            List.length (filter (py3_batch_failed pylint_Run) bs)).
Proof.
  intros r files3 bs. subst r.
  unfold _lint_py_files_for_python3_compatibility, bind, get_self, string_io,
    PRINT, write, ret.
  cbn [fst snd self engine_log streams sys_stdout next_stream].
  fold files3. subst bs. destruct files3 as [|f0 rest] eqn:Hf3.
  - cbn. split; [reflexivity|]. split; [intros _; split; reflexivity|].
    intros H; contradiction.
  - rewrite <- Hf3.
    match goal with
    | |- context [py3_loop ?a ?b ?c ?d ?e ?f ?g ?h ?wl] =>
        destruct (py3_loop a b c d e f g h wl) as [res wl'] eqn:E
    end.
    apply py3_loop_spec in E as (Hlog & Hself & Herr & retained & Hret & Hlen).
    cbn [fst snd self engine_log] in *.
    split; [exact Hself|]. split; [intros H; rewrite Hf3 in H; discriminate H|].
    intros _. split; [exact Hlog|].
    exists retained. rewrite Hret, Herr. split; [reflexivity | exact Hlen].
Qed.

Lemma check_import_order_spec w :
  let r := _check_import_order isort_Check w in
  let files := files_to_lint (self w) in
  let verdict := if existsb (fun f => fst (isort_Check f)) files
                 then import_order_failed_line
                 else import_order_success_line in
  fst r = [verdict]
  /\ engine_log (snd r) = engine_log w ++ map IsortSortImports files
  /\ self (snd r) = self w
  /\ streams (snd r) (sys_stdout w) =
     String.append (streams w (sys_stdout w))
       (String.append
          (if verbose_mode_enabled (self w) then import_order_header
           else EmptyString)
          (String.append (import_order_output isort_Check files)
             (String.append nl (String.append verdict nl)))).
Proof.
  intros r files verdict. subst r.
  unfold _check_import_order, redirect_stdout, get_sys_stdout,
    set_sys_stdout, PRINT, write, get_self, bind, ret.
  destruct (verbose_mode_enabled (self w)) eqn:Hv;
  cbn [fst snd self engine_log streams sys_stdout next_stream];
  match goal with
  | |- context [import_order_loop ?a ?b ?c ?wl] =>
      destruct (import_order_loop a b c wl) as [failed wl'] eqn:E
  end;
  apply import_order_loop_spec in E as (Hlog & Hself & Hout & Hr & Hs);
  cbn [fst snd self engine_log streams sys_stdout next_stream] in *;
  rewrite ?update_stream_same in Hs; rewrite Hr; fold files in Hlog, Hs |- *;
  subst verdict;
  destruct (existsb (fun f => fst (isort_Check f)) files);
  cbn [orb fst snd self engine_log streams sys_stdout];
  rewrite ?Hout, ?update_stream_same, ?Hs;
  (split; [reflexivity|]); (split; [exact Hlog|]); (split; [exact Hself|]);
  unfold import_order_header, nl, newline;
  rewrite ?str_app_nil, <- ?str_app_assoc; reflexivity.
Qed.

Lemma python_perform_all_spec w :
  let r := PythonLintChecksManager_perform_all_lint_checks isort_Check w in
  self (snd r) = self w
  /\ (files_to_lint (self w) = [] ->
      fst r = [] /\ engine_log (snd r) = engine_log w
      /\ streams (snd r) (sys_stdout w) =
         String.append (streams w (sys_stdout w)) no_files_notice)
  /\ (files_to_lint (self w) <> [] -> r = _check_import_order isort_Check w).
Proof.
  intros r. subst r.
  unfold PythonLintChecksManager_perform_all_lint_checks, bind, get_self.
  destruct (files_to_lint (self w)) as [|f rest] eqn:Hf.
  - unfold PRINT, write, ret. cbn.
    rewrite !update_stream_same. split; [reflexivity|].
    split; [intros _; split; [reflexivity|split; [reflexivity|]]|].
    + unfold no_files_notice, nl, newline. rewrite <- !str_app_assoc.
      reflexivity.
    + intros H; contradiction.
  - split; [apply check_import_order_spec|].
    split; [intros H; discriminate H | reflexivity].
Qed.

Lemma third_party_perform_all_spec w :
  let r := ThirdPartyPythonLintChecksManager_perform_all_lint_checks
             pylint_Run pycodestyle_Check elapsed_secs cwd w in
  self (snd r) = self w
  /\ (files_to_lint (self w) = [] ->
      fst r = [] /\ engine_log (snd r) = engine_log w
      /\ streams (snd r) (sys_stdout w) =
         String.append (streams w (sys_stdout w)) no_files_notice).
Proof.
  intros r. subst r.
  unfold ThirdPartyPythonLintChecksManager_perform_all_lint_checks, bind,
    get_self.
  destruct (files_to_lint (self w)) as [|f rest] eqn:Hf.
  - unfold PRINT, write, ret. cbn.
    rewrite !update_stream_same. split; [reflexivity|].
    intros _; split; [reflexivity|split; [reflexivity|]].
    unfold no_files_notice, nl, newline. rewrite <- !str_app_assoc.
    reflexivity.
  - destruct (_lint_py_files pylint_Run pycodestyle_Check elapsed_secs _ _ w)
      as [m1 w1] eqn:E1.
    destruct (_lint_py_files_for_python3_compatibility pylint_Run elapsed_secs w1)
      as [m2 w2] eqn:E2.
    unfold ret. cbn [snd].
    split; [|intros H; discriminate H].
    pose proof (proj1 (proj2 (lint_py_files_spec
      (String.append "--rcfile=" (os_path_join cwd ".pylintrc"))
      (os_path_join cwd "tox.ini") w))) as H1.
    pose proof (proj1 (py3_spec w1)) as H2.
    rewrite E1 in H1. rewrite E2 in H2. cbn [snd] in H1, H2.
    rewrite H2, H1. reflexivity.
Qed.

End RunFacts.
End Runs.

(** ** Helper facts for the claims *)

Module Verdicts.

Lemma style_batch_failed_false_iff pylint_Run pycodestyle_Check cp cc b :
  style_batch_failed pylint_Run pycodestyle_Check cp cc b = false <->
  fst (pylint_Run (b ++ [cp])) = 0%Z /\ fst (pycodestyle_Check cc b) = 0.
Proof.
  unfold style_batch_failed.
  rewrite orb_false_iff, !negb_false_iff, Z.eqb_eq, Nat.eqb_eq. reflexivity.
Qed.

Lemma existsb_false_Forall {A} (f : A -> bool) l :
  existsb f l = false <-> Forall (fun x => f x = false) l.
Proof.
  rewrite Forall_forall. split.
  - intros H x Hx. destruct (f x) eqn:Hf; [|reflexivity].
    assert (existsb f l = true) by (apply existsb_exists; eauto).
    congruence.
  - intros H. destruct (existsb f l) eqn:He; [|reflexivity].
    apply existsb_exists in He as (x & Hx & Hfx). rewrite H in Hfx; auto.
Qed.

Lemma lint_failed_line_prefix :
  String.prefix "SUCCESS" lint_failed_line = false /\
  String.prefix "FAILED" lint_failed_line = true.
Proof. split; reflexivity. Qed.

Lemma lint_success_line_prefix n el :
  String.prefix "SUCCESS" (lint_success_line n el) = true.
Proof. reflexivity. Qed.

Lemma py3_line_prefixes n el :
  String.prefix "FAILED" py3_failed_line = true /\
  String.prefix "SUCCESS" (py3_success_line n el) = true.
Proof. split; reflexivity. Qed.

Lemma import_order_line_prefixes :
  String.prefix "FAILED" import_order_failed_line = true /\
  String.prefix "SUCCESS" import_order_success_line = true.
Proof. split; reflexivity. Qed.

End Verdicts.

(** * The claims *)

Import Batching Loops Runs Verdicts.

(** C2: [_lint_py_files] cuts the file list into batches of at most
    [_batch_size] (50) files, each non-empty, which concatenate to the
    input list in order (so they are contiguous and do not overlap);
    every batch is one pylint call and one pycodestyle call, and there are
    ceil(len(files) / 50) batches. *)
Theorem lint_py_files_batches_partition
    (pylint_Run : list string -> Z * string)
    (pycodestyle_Check : string -> list string -> nat * string)
    (elapsed_secs config_pylint config_pycodestyle : string) (w : World) :
  let w' := snd (_lint_py_files pylint_Run pycodestyle_Check elapsed_secs
                   config_pylint config_pycodestyle w) in
  let files := files_to_lint (self w) in
  exists bs : list (list string),
    engine_log w' =
      engine_log w ++ flat_map (style_calls config_pylint config_pycodestyle) bs
    /\ List.concat bs = files
    /\ Forall (fun b => 1 <= List.length b <= _batch_size) bs
    /\ List.length bs = (List.length files + _batch_size - 1) / _batch_size.
Proof.
  intros w' files. exists (batches files).
  split; [apply (lint_py_files_spec pylint_Run pycodestyle_Check elapsed_secs)|].
  split; [apply batches_concat|].
  split; [apply batches_sizes | apply batches_length].
Qed.

(** C3: every batch of [_lint_py_files] is run, whatever the earlier
    batches reported, and the run's verdict (its last summary message)
    starts with SUCCESS exactly when every batch had pylint status 0 and
    pycodestyle count 0. *)
Theorem lint_py_files_passes_iff_all_batches_clean
    (pylint_Run : list string -> Z * string)
    (pycodestyle_Check : string -> list string -> nat * string)
    (elapsed_secs cp cc : string) (w : World) :
  let r := _lint_py_files pylint_Run pycodestyle_Check elapsed_secs cp cc w in
  let bs := batches (files_to_lint (self w)) in
  engine_log (snd r) = engine_log w ++ flat_map (style_calls cp cc) bs
  /\ List.concat bs = files_to_lint (self w)
  /\ (String.prefix "SUCCESS" (last (fst r) EmptyString) = true <->
      Forall (fun b => fst (pylint_Run (b ++ [cp])) = 0%Z /\
                       fst (pycodestyle_Check cc b) = 0) bs).
Proof.
  intros r bs.
  destruct (lint_py_files_spec pylint_Run pycodestyle_Check elapsed_secs cp cc w)
    as (Hlog & _ & retained & Hret & _).
  fold r bs in Hlog, Hret.
  split; [exact Hlog|]. split; [apply batches_concat|].
  rewrite Hret, last_last.
  assert (Hiff : Forall (fun b => fst (pylint_Run (b ++ [cp])) = 0%Z /\
                                  fst (pycodestyle_Check cc b) = 0) bs <->
                 existsb (style_batch_failed pylint_Run pycodestyle_Check cp cc) bs
                 = false).
  { rewrite existsb_false_Forall. split; apply Forall_impl;
      intros b; apply style_batch_failed_false_iff. }
  rewrite Hiff.
  destruct (existsb (style_batch_failed pylint_Run pycodestyle_Check cp cc) bs).
  - rewrite (proj1 lint_failed_line_prefix). split; discriminate.
  - rewrite lint_success_line_prefix. split; reflexivity.
Qed.

(** C6: the Python 3 check drops every file matching
    [^.*python_utils.*\.py$] before batching: the files it hands to pylint
    (all batches together, each followed by the [--py3k] flag) are exactly
    the non-matching files, in their original order. *)
Theorem py3_engine_receives_only_unexcluded_files
    (pylint_Run : list string -> Z * string) (elapsed_secs : string)
    (w : World) :
  let w' := snd (_lint_py_files_for_python3_compatibility pylint_Run
                   elapsed_secs w) in
  exists bs : list (list string),
    engine_log w' =
      engine_log w ++ map (fun b => PylintRun (b ++ ["--py3k"])) bs
    /\ List.concat bs =
       filter (fun f => negb (re_match_python_utils f)) (files_to_lint (self w)).
Proof.
  intros w'.
  destruct (py3_spec pylint_Run elapsed_secs w) as (_ & Hempty & Hne).
  fold w' in Hempty, Hne.
  destruct (files_to_lint_for_python3_compatibility (files_to_lint (self w)))
    as [|f rest] eqn:Hf.
  - exists []. split.
    + rewrite app_nil_r. apply Hempty. reflexivity.
    + exact (eq_sym Hf).
  - rewrite <- Hf in Hne.
    exists (batches (files_to_lint_for_python3_compatibility
                       (files_to_lint (self w)))).
    split.
    + apply Hne. rewrite Hf. discriminate.
    + apply batches_concat.
Qed.

(** The scenario of the spec: one excluded file and two others; pylint is
    called once, on the two others. *)
Example py3_scenario_one_excluded_file :
  engine_log (snd (_lint_py_files_for_python3_compatibility (sample_pylint [])
    "0.3" (initial_world ["python_utils.py"; "core/a.py"; "core/b.py"] false)))
  = [PylintRun ["core/a.py"; "core/b.py"; "--py3k"]].
Proof. reflexivity. Qed.

(** How the exclusion pattern reads on some names. *)
Example re_match_python_utils_examples :
  map re_match_python_utils
    ["python_utils.py"; "scripts/python_utils_test.py"; "python_utils.pyc";
     String.append "python_utils.py" nl; "core/utils.py"; "python_utils"]
  = [true; true; false; true; false; false].
Proof. reflexivity. Qed.

(** C7: when no file is left after the exclusion, the Python 3 check
    returns no summary message at all and calls no engine. *)
Theorem py3_skipped_when_nothing_left
    (pylint_Run : list string -> Z * string) (elapsed_secs : string)
    (w : World) :
  files_to_lint_for_python3_compatibility (files_to_lint (self w)) = [] ->
  fst (_lint_py_files_for_python3_compatibility pylint_Run elapsed_secs w) = []
  /\ engine_log (snd (_lint_py_files_for_python3_compatibility pylint_Run
                        elapsed_secs w)) = engine_log w.
Proof.
  intros H. exact (proj1 (proj2 (py3_spec pylint_Run elapsed_secs w)) H).
Qed.

Lemma py3_skipped_when_nothing_left_witness :
  files_to_lint_for_python3_compatibility ["scripts/python_utils.py"] = []
  /\ fst (_lint_py_files_for_python3_compatibility (sample_pylint []) "0.0"
            (initial_world ["scripts/python_utils.py"] false)) = []
  /\ engine_log (snd (_lint_py_files_for_python3_compatibility
                        (sample_pylint []) "0.0"
                        (initial_world ["scripts/python_utils.py"] false)))
     = engine_log (initial_world ["scripts/python_utils.py"] false).
Proof.
  split; [reflexivity|].
  apply (py3_skipped_when_nothing_left (sample_pylint []) "0.0"
           (initial_world ["scripts/python_utils.py"] false)).
  reflexivity.
Defined.

(** C9: no lint operation changes the manager it runs on, in particular
    its [files_to_lint]. *)
Theorem lint_operations_keep_manager
    (pylint_Run : list string -> Z * string)
    (pycodestyle_Check : string -> list string -> nat * string)
    (isort_Check : string -> bool * string)
    (elapsed_secs cwd cp cc : string) (w : World) :
  self (snd (PythonLintChecksManager_perform_all_lint_checks isort_Check w))
    = self w
  /\ self (snd (ThirdPartyPythonLintChecksManager_perform_all_lint_checks
                  pylint_Run pycodestyle_Check elapsed_secs cwd w)) = self w
  /\ self (snd (_lint_py_files pylint_Run pycodestyle_Check elapsed_secs
                  cp cc w)) = self w
  /\ self (snd (_lint_py_files_for_python3_compatibility pylint_Run
                  elapsed_secs w)) = self w
  /\ self (snd (_check_import_order isort_Check w)) = self w.
Proof.
  split; [apply (python_perform_all_spec isort_Check)|].
  split; [apply (third_party_perform_all_spec pylint_Run pycodestyle_Check
                   elapsed_secs cwd)|].
  split; [apply (lint_py_files_spec pylint_Run pycodestyle_Check elapsed_secs)|].
  split; [apply (py3_spec pylint_Run elapsed_secs)|].
  apply (check_import_order_spec isort_Check).
Qed.

(** C10: each check ends its summary messages with exactly one verdict
    line, starting with SUCCESS or FAILED: [_lint_py_files] and the
    Python 3 check (when some file is left after the exclusion) return the
    retained batch messages, one per failing batch, followed by the
    verdict; [_check_import_order] returns the verdict alone. *)
Theorem checks_end_with_one_verdict_line :
  (forall (pylint_Run : list string -> Z * string)
          (pycodestyle_Check : string -> list string -> nat * string)
          (elapsed_secs cp cc : string) (w : World),
     exists retained v,
       fst (_lint_py_files pylint_Run pycodestyle_Check elapsed_secs cp cc w)
         = retained ++ [v]
       /\ (String.prefix "SUCCESS" v = true \/ String.prefix "FAILED" v = true)
       /\ List.length retained =
          List.length (filter (style_batch_failed pylint_Run pycodestyle_Check
                                 cp cc) (batches (files_to_lint (self w)))))
  /\ (forall (pylint_Run : list string -> Z * string) (elapsed_secs : string)
             (w : World),
     files_to_lint_for_python3_compatibility (files_to_lint (self w)) <> [] ->
     exists retained v,
       fst (_lint_py_files_for_python3_compatibility pylint_Run elapsed_secs w)
         = retained ++ [v]
       /\ (String.prefix "SUCCESS" v = true \/ String.prefix "FAILED" v = true)
       /\ List.length retained =
          List.length (filter (py3_batch_failed pylint_Run)
            (batches (files_to_lint_for_python3_compatibility
                        (files_to_lint (self w))))))
  /\ (forall (isort_Check : string -> bool * string) (w : World),
     exists v,
       fst (_check_import_order isort_Check w) = [v]
       /\ (String.prefix "SUCCESS" v = true \/ String.prefix "FAILED" v = true)).
Proof.
  split; [|split].
  - intros pl pc el cp cc w.
    destruct (lint_py_files_spec pl pc el cp cc w) as (_ & _ & retained & Hret & Hlen).
    eexists retained, _. split; [exact Hret|]. split; [|exact Hlen].
    destruct (existsb _ _).
    + right. apply lint_failed_line_prefix.
    + left. apply lint_success_line_prefix.
  - intros pl el w Hne.
    destruct (proj2 (proj2 (py3_spec pl el w)) Hne)
      as (_ & retained & Hret & Hlen).
    eexists retained, _. split; [exact Hret|]. split; [|exact Hlen].
    destruct (existsb _ _).
    + right. apply (py3_line_prefixes 0 el).
    + left. apply py3_line_prefixes.
  - intros isc w.
    destruct (check_import_order_spec isc w) as (Hret & _).
    eexists. split; [exact Hret|].
    destruct (existsb _ _).
    + right. apply import_order_line_prefixes.
    + left. apply import_order_line_prefixes.
Qed.

Lemma checks_end_with_one_verdict_line_witness :
  files_to_lint_for_python3_compatibility ["core/a.py"] <> []
  /\ exists retained v,
       fst (_lint_py_files_for_python3_compatibility (sample_pylint ["core/a.py"])
              "0.2" (initial_world ["core/a.py"] false))
         = retained ++ [v]
       /\ (String.prefix "SUCCESS" v = true \/ String.prefix "FAILED" v = true)
       /\ List.length retained =
          List.length (filter (py3_batch_failed (sample_pylint ["core/a.py"]))
            (batches (files_to_lint_for_python3_compatibility
                        (files_to_lint (self (initial_world ["core/a.py"] false)))))).
Proof.
  split; [discriminate|].
  apply (proj1 (proj2 checks_end_with_one_verdict_line)
           (sample_pylint ["core/a.py"]) "0.2" (initial_world ["core/a.py"] false)).
  discriminate.
Defined.

(** C4 (counterexample): with an empty file list neither manager's
    [perform_all_lint_checks] returns a single-element summary: both
    return the empty list. *)
Lemma perform_all_empty_returns_empty_list :
  fst (ThirdPartyPythonLintChecksManager_perform_all_lint_checks
         (sample_pylint []) sample_pycodestyle "0.0" "/oppia"
         (initial_world [] false)) = []
  /\ fst (PythonLintChecksManager_perform_all_lint_checks (sample_isort [])
            (initial_world [] false)) = []
  /\ List.length (fst (ThirdPartyPythonLintChecksManager_perform_all_lint_checks
         (sample_pylint []) sample_pycodestyle "0.0" "/oppia"
         (initial_world [] false))) <> 1.
Proof. split; [reflexivity|]. split; [reflexivity|]. discriminate. Qed.

(** C4 (amended): with an empty file list, [perform_all_lint_checks] of
    either manager returns an empty list of summary messages, calls no
    engine, and only prints the notice "There are no Python files to
    lint." to standard output. *)
Theorem perform_all_empty_prints_notice_only
    (pylint_Run : list string -> Z * string)
    (pycodestyle_Check : string -> list string -> nat * string)
    (isort_Check : string -> bool * string)
    (elapsed_secs cwd : string) (w : World) :
  files_to_lint (self w) = [] ->
  let r1 := ThirdPartyPythonLintChecksManager_perform_all_lint_checks
              pylint_Run pycodestyle_Check elapsed_secs cwd w in
  let r2 := PythonLintChecksManager_perform_all_lint_checks isort_Check w in
  fst r1 = [] /\ engine_log (snd r1) = engine_log w
  /\ streams (snd r1) (sys_stdout w) =
     String.append (streams w (sys_stdout w)) no_files_notice
  /\ fst r2 = [] /\ engine_log (snd r2) = engine_log w
  /\ streams (snd r2) (sys_stdout w) =
     String.append (streams w (sys_stdout w)) no_files_notice.
Proof.
  intros H r1 r2.
  destruct (proj2 (third_party_perform_all_spec pylint_Run pycodestyle_Check
                     elapsed_secs cwd w) H) as (A1 & A2 & A3).
  destruct (proj1 (proj2 (python_perform_all_spec isort_Check w)) H)
    as (B1 & B2 & B3).
  repeat split; assumption.
Qed.

Lemma perform_all_empty_prints_notice_only_witness :
  files_to_lint (self (initial_world [] false)) = []
  /\ let w := initial_world [] false in
     let r1 := ThirdPartyPythonLintChecksManager_perform_all_lint_checks
                 (sample_pylint []) sample_pycodestyle "0.0" "/oppia" w in
     let r2 := PythonLintChecksManager_perform_all_lint_checks
                 (sample_isort []) w in
     fst r1 = [] /\ engine_log (snd r1) = engine_log w
     /\ streams (snd r1) (sys_stdout w) =
        String.append (streams w (sys_stdout w)) no_files_notice
     /\ fst r2 = [] /\ engine_log (snd r2) = engine_log w
     /\ streams (snd r2) (sys_stdout w) =
        String.append (streams w (sys_stdout w)) no_files_notice.
Proof.
  split; [reflexivity|].
  apply (perform_all_empty_prints_notice_only (sample_pylint [])
           sample_pycodestyle (sample_isort []) "0.0" "/oppia"
           (initial_world [] false)).
  reflexivity.
Defined.

(** C5 (counterexample): three files, the second one not sorted.  The
    check fails, but what it returns is the FAILED line alone: the
    diagnostic isort printed for the failing file is in no returned
    message. *)
Lemma import_order_result_omits_diagnostic :
  let files := ["core/a.py"; "core/b.py"; "core/c.py"] in
  let isort_Check := sample_isort ["core/b.py"] in
  let msgs := fst (_check_import_order isort_Check (initial_world files false)) in
  msgs = [import_order_failed_line]
  /\ existsb (contains (snd (isort_Check "core/b.py"))) msgs = false.
Proof. split; reflexivity. Qed.

(** C5 (amended): [_check_import_order] calls isort on every file in
    order and returns exactly one message: the FAILED line when some file
    is reported incorrectly sorted, the SUCCESS line otherwise.  The
    per-file diagnostics are not returned: they go to standard output, in
    file-list order (with an empty line after each failing file), before
    an empty line and the verdict. *)
Theorem import_order_verdict_and_printed_diagnostics
    (isort_Check : string -> bool * string) (w : World) :
  let r := _check_import_order isort_Check w in
  let files := files_to_lint (self w) in
  let verdict := if existsb (fun f => fst (isort_Check f)) files
                 then import_order_failed_line
                 else import_order_success_line in
  fst r = [verdict]
  /\ engine_log (snd r) = engine_log w ++ map IsortSortImports files
  /\ streams (snd r) (sys_stdout w) =
     String.append (streams w (sys_stdout w))
       (String.append
          (if verbose_mode_enabled (self w) then import_order_header
           else EmptyString)
          (String.append (import_order_output isort_Check files)
             (String.append nl (String.append verdict nl)))).
Proof.
  intros r files verdict.
  destruct (check_import_order_spec isort_Check w) as (H1 & H2 & _ & H4).
  split; [exact H1|]. split; [exact H2 | exact H4].
Qed.

(** C1 (code_bug): 120 files in batches of 50, only batch 2 (files 51 to
    100) reports a pylint error.  The message kept for batch 2 also holds
    the rating pylint printed during batch 1: the capture buffer is
    created once, before the batch loop, and never emptied. *)
Theorem lint_py_files_batch_message_has_earlier_output :
  fst (_lint_py_files (sample_pylint ["f75.py"]) sample_pycodestyle "0.4"
         "--rcfile=/oppia/.pylintrc" "/oppia/tox.ini"
         (initial_world (sample_files 120) false))
  = [String.append (String.append sample_rating nl)
                   (String.append sample_error nl);
     lint_failed_line].
Proof. vm_compute. reflexivity. Qed.

(** C8 (code_bug): 120 files; batches 1 and 3 fail, batch 2 is clean.
    Two batch messages are kept, one per failing batch, but the second
    one contains the text of batch 1 again and the text of the clean
    batch 2. *)
Theorem lint_py_files_clean_batch_text_retained :
  fst (_lint_py_files (sample_pylint ["f10.py"; "f110.py"]) sample_pycodestyle
         "0.4" "--rcfile=/oppia/.pylintrc" "/oppia/tox.ini"
         (initial_world (sample_files 120) false))
  = [String.append sample_error nl;
     String.append (String.append sample_error nl)
       (String.append (String.append sample_rating nl)
                      (String.append sample_error nl));
     lint_failed_line].
Proof. vm_compute. reflexivity. Qed.

(** * Further properties of the module *)

(** ** The capture buffer and the other streams *)

Module Buffers.
Import Batching Loops Runs.

Section BufferFacts.

Variable pylint_Run : list string -> Z * string.
Variable pycodestyle_Check : string -> list string -> nat * string.

Ltac run_monad :=
  unfold bind, ret, redirect_stdout, lint_Run, pycodestyle_check_files,
    log_call, get_sys_stdout, set_sys_stdout, getvalue, PRINT, write in *;
  cbn [fst snd engine_log self sys_stdout streams next_stream] in *.

Lemma lint_py_files_loop_buffer fuel : forall files verbose cp cc stdout start
    msgs errs w r w',
  lint_py_files_loop pylint_Run pycodestyle_Check fuel files verbose cp cc
    stdout start msgs errs w = (r, w') ->
  stdout <> sys_stdout w ->
  sys_stdout w' = sys_stdout w
  /\ fst r = msgs ++
       cumulative_reports (style_batch_failed pylint_Run pycodestyle_Check cp cc)
         (style_batch_text pylint_Run pycodestyle_Check cp cc)
         (streams w stdout) (batches_from fuel start files).
Proof.
  induction fuel as [|fuel IH];
    intros files verbose cp cc stdout start msgs errs w r w' E Hne.
  - cbn in E. injection E as <- <-. unfold batches_from. cbn.
    rewrite app_nil_r. split; reflexivity.
  - cbn [lint_py_files_loop] in E.
    destruct (Nat.ltb start (List.length files)) eqn:Hlt.
    2:{ injection E as <- <-. rewrite batches_from_stop by exact Hlt. cbn.
        rewrite app_nil_r. split; reflexivity. }
    rewrite batches_from_unfold by exact Hlt.
    set (e := Nat.min (start + _batch_size) (List.length files)) in *.
    set (b := py_slice files start e) in *.
    cbn [cumulative_reports].
    destruct (pylint_Run (b ++ [cp])) as [st out] eqn:Hp.
    destruct (pycodestyle_Check cc b) as [count out2] eqn:Hc.
    assert (Hfb : style_batch_failed pylint_Run pycodestyle_Check cp cc b =
                  negb (st =? 0)%Z || negb (Nat.eqb count 0))
      by (unfold style_batch_failed; rewrite Hp, Hc; reflexivity).
    assert (Ht : style_batch_text pylint_Run pycodestyle_Check cp cc b =
                 String.append out out2)
      by (unfold style_batch_text; rewrite Hp, Hc; reflexivity).
    rewrite Hfb, Ht.
    pose proof Hne as Hneqb. apply Nat.eqb_neq in Hneqb.
    destruct verbose; run_monad; rewrite ?Hp, ?Hc in E; cbn in E;
    destruct (negb (st =? 0)%Z || negb (Nat.eqb count 0)) eqn:Hf;
    cbn in E; destruct (IH _ _ _ _ _ _ _ _ _ _ _ E Hne) as (Hout & Hret);
    cbn [streams] in Hret;
    unfold update_stream in Hret; rewrite ?Nat.eqb_refl, ?Hneqb in Hret;
    cbn [fst snd] in Hret;
    (split; [exact Hout|]);
    rewrite Hret, <- ?str_app_assoc; cbn [app]; rewrite <- ?app_assoc;
    reflexivity.
Qed.

Lemma py3_loop_buffer fuel : forall files verbose stdout start msgs errs w r w',
  py3_loop pylint_Run fuel files verbose stdout start msgs errs w = (r, w') ->
  stdout <> sys_stdout w ->
  sys_stdout w' = sys_stdout w
  /\ fst r = msgs ++
       cumulative_reports (py3_batch_failed pylint_Run) (py3_batch_text pylint_Run)
         (streams w stdout) (batches_from fuel start files).
Proof.
  induction fuel as [|fuel IH];
    intros files verbose stdout start msgs errs w r w' E Hne.
  - cbn in E. injection E as <- <-. unfold batches_from. cbn.
    rewrite app_nil_r. split; reflexivity.
  - cbn [py3_loop] in E.
    destruct (Nat.ltb start (List.length files)) eqn:Hlt.
    2:{ injection E as <- <-. rewrite batches_from_stop by exact Hlt. cbn.
        rewrite app_nil_r. split; reflexivity. }
    rewrite batches_from_unfold by exact Hlt.
    set (e := Nat.min (start + _batch_size) (List.length files)) in *.
    set (b := py_slice files start e) in *.
    cbn [cumulative_reports].
    destruct (pylint_Run (b ++ ["--py3k"])) as [st out] eqn:Hp.
    assert (Hfb : py3_batch_failed pylint_Run b = negb (st =? 0)%Z)
      by (unfold py3_batch_failed; rewrite Hp; reflexivity).
    assert (Ht : py3_batch_text pylint_Run b =
                 String.append "Messages for Python 3 support:"
                   (String.append nl out))
      by (unfold py3_batch_text; rewrite Hp; reflexivity).
    rewrite Hfb, Ht.
    pose proof Hne as Hneqb. apply Nat.eqb_neq in Hneqb.
    destruct verbose; run_monad; rewrite ?Hp in E; cbn in E;
    destruct (negb (st =? 0)%Z) eqn:Hf;
    cbn in E; destruct (IH _ _ _ _ _ _ _ _ _ E Hne) as (Hout & Hret);
    cbn [streams] in Hret;
    unfold update_stream in Hret; rewrite ?Nat.eqb_refl, ?Hneqb in Hret;
    cbn [fst snd] in Hret;
    (split; [exact Hout|]);
    rewrite Hret, <- ?str_app_assoc; cbn [app]; rewrite <- ?app_assoc;
    reflexivity.
Qed.

End BufferFacts.

(** The summary messages of whole runs, from the loop lemmas above. *)
Lemma lint_py_files_snapshots
    (pylint_Run : list string -> Z * string)
    (pycodestyle_Check : string -> list string -> nat * string)
    (elapsed_secs cp cc : string) (w : World) :
  sys_stdout w <> next_stream w ->
  let files := files_to_lint (self w) in
  let bs := batches files in
  fst (_lint_py_files pylint_Run pycodestyle_Check elapsed_secs cp cc w) =
    cumulative_reports (style_batch_failed pylint_Run pycodestyle_Check cp cc)
      (style_batch_text pylint_Run pycodestyle_Check cp cc) EmptyString bs
    ++ [if existsb (style_batch_failed pylint_Run pycodestyle_Check cp cc) bs
        then lint_failed_line
        else lint_success_line (List.length files) elapsed_secs].
Proof.
  intros Hne files bs.
  unfold _lint_py_files, bind, get_self, string_io, PRINT, write, ret.
  cbn [fst snd self engine_log streams sys_stdout next_stream].
  match goal with
  | |- context [lint_py_files_loop ?a ?b ?c ?d ?e ?f ?g ?h ?i ?j ?k ?wl] =>
      destruct (lint_py_files_loop a b c d e f g h i j k wl) as [res wl'] eqn:E
  end.
  pose proof E as E'.
  apply Loops.lint_py_files_loop_spec in E as (_ & _ & Herr & _).
  destruct (lint_py_files_loop_buffer pylint_Run pycodestyle_Check
              _ _ _ _ _ _ _ _ _ _ _ _ E' (not_eq_sym Hne)) as (_ & Hret).
  cbn [streams] in Hret. rewrite update_stream_same in Hret.
  cbn [fst snd] in Herr, Hret |- *. rewrite Hret, Herr. reflexivity.
Qed.

Lemma py3_snapshots
    (pylint_Run : list string -> Z * string) (elapsed_secs : string)
    (w : World) :
  sys_stdout w <> next_stream w ->
  let files3 := files_to_lint_for_python3_compatibility (files_to_lint (self w)) in
  files3 <> [] ->
  let bs := batches files3 in
  fst (_lint_py_files_for_python3_compatibility pylint_Run elapsed_secs w) =
    cumulative_reports (py3_batch_failed pylint_Run) (py3_batch_text pylint_Run)
      EmptyString bs
    ++ [if existsb (py3_batch_failed pylint_Run) bs
        then py3_failed_line
        else py3_success_line (List.length files3) elapsed_secs].
Proof.
  intros Hne files3 Hf bs. subst bs.
  unfold _lint_py_files_for_python3_compatibility, bind, get_self, string_io,
    PRINT, write, ret.
  cbn [fst snd self engine_log streams sys_stdout next_stream].
  fold files3. destruct files3 as [|f0 rest] eqn:Hf3; [contradiction|].
  rewrite <- Hf3.
  match goal with
  | |- context [py3_loop ?a ?b ?c ?d ?e ?f ?g ?h ?wl] =>
      destruct (py3_loop a b c d e f g h wl) as [res wl'] eqn:E
  end.
  pose proof E as E'.
  apply Loops.py3_loop_spec in E as (_ & _ & Herr & _).
  destruct (py3_loop_buffer pylint_Run _ _ _ _ _ _ _ _ _ _ E' (not_eq_sym Hne))
    as (_ & Hret).
  assert (Hb : Nat.eqb (next_stream w) (sys_stdout w) = false)
    by (apply Nat.eqb_neq; congruence).
  cbn [streams sys_stdout] in Hret. unfold update_stream in Hret.
  rewrite ?Nat.eqb_refl, ?Hb in Hret.
  cbn [fst snd] in Herr, Hret |- *. rewrite Hret, Herr. reflexivity.
Qed.

End Buffers.

(** ** Extra properties *)

Import Buffers.

(** The summary messages of [_lint_py_files] in full: one per failing
    batch, each the whole content of the capture buffer at that point
    (the text pylint and pycodestyle printed for every batch so far),
    then the verdict.  The buffer is a fresh stream, distinct from the
    one [sys.stdout] points to. *)
Theorem lint_py_files_messages_are_buffer_snapshots
    (pylint_Run : list string -> Z * string)
    (pycodestyle_Check : string -> list string -> nat * string)
    (elapsed_secs cp cc : string) (w : World) :
  sys_stdout w <> next_stream w ->
  let files := files_to_lint (self w) in
  let bs := batches files in
  fst (_lint_py_files pylint_Run pycodestyle_Check elapsed_secs cp cc w) =
    cumulative_reports (style_batch_failed pylint_Run pycodestyle_Check cp cc)
      (style_batch_text pylint_Run pycodestyle_Check cp cc) EmptyString bs
    ++ [if existsb (style_batch_failed pylint_Run pycodestyle_Check cp cc) bs
        then lint_failed_line
        else lint_success_line (List.length files) elapsed_secs].
Proof. exact (lint_py_files_snapshots pylint_Run pycodestyle_Check elapsed_secs cp cc w). Qed.

Lemma lint_py_files_messages_are_buffer_snapshots_witness :
  sys_stdout (initial_world (sample_files 3) false)
    <> next_stream (initial_world (sample_files 3) false)
  /\ fst (_lint_py_files (sample_pylint ["f2.py"]) sample_pycodestyle "0.1"
            "--rcfile=.pylintrc" "tox.ini" (initial_world (sample_files 3) false)) =
    cumulative_reports
      (style_batch_failed (sample_pylint ["f2.py"]) sample_pycodestyle
         "--rcfile=.pylintrc" "tox.ini")
      (style_batch_text (sample_pylint ["f2.py"]) sample_pycodestyle
         "--rcfile=.pylintrc" "tox.ini") EmptyString
      (batches (files_to_lint (self (initial_world (sample_files 3) false))))
    ++ [if existsb (style_batch_failed (sample_pylint ["f2.py"]) sample_pycodestyle
                      "--rcfile=.pylintrc" "tox.ini")
             (batches (files_to_lint (self (initial_world (sample_files 3) false))))
        then lint_failed_line
        else lint_success_line
               (List.length (files_to_lint (self (initial_world (sample_files 3) false))))
               "0.1"].
Proof.
  split; [discriminate|].
  apply (lint_py_files_messages_are_buffer_snapshots (sample_pylint ["f2.py"])
           sample_pycodestyle "0.1" "--rcfile=.pylintrc" "tox.ini"
           (initial_world (sample_files 3) false)).
  discriminate.
Defined.

(** The summary messages of the Python 3 check in full, when some file is
    left after the exclusion: one per failing batch, each the whole content
    of the capture buffer at that point (every batch so far, each with its
    "Messages for Python 3 support:" header), then the verdict. *)
Theorem py3_messages_are_buffer_snapshots
    (pylint_Run : list string -> Z * string) (elapsed_secs : string)
    (w : World) :
  sys_stdout w <> next_stream w ->
  let files3 := files_to_lint_for_python3_compatibility (files_to_lint (self w)) in
  files3 <> [] ->
  let bs := batches files3 in
  fst (_lint_py_files_for_python3_compatibility pylint_Run elapsed_secs w) =
    cumulative_reports (py3_batch_failed pylint_Run) (py3_batch_text pylint_Run)
      EmptyString bs
    ++ [if existsb (py3_batch_failed pylint_Run) bs
        then py3_failed_line
        else py3_success_line (List.length files3) elapsed_secs].
Proof. exact (py3_snapshots pylint_Run elapsed_secs w). Qed.

Lemma py3_messages_are_buffer_snapshots_witness :
  let w := initial_world ["core/a.py"; "python_utils.py"] false in
  sys_stdout w <> next_stream w
  /\ files_to_lint_for_python3_compatibility (files_to_lint (self w)) <> []
  /\ fst (_lint_py_files_for_python3_compatibility (sample_pylint ["core/a.py"])
            "0.1" w) =
    cumulative_reports (py3_batch_failed (sample_pylint ["core/a.py"]))
      (py3_batch_text (sample_pylint ["core/a.py"])) EmptyString
      (batches (files_to_lint_for_python3_compatibility (files_to_lint (self w))))
    ++ [if existsb (py3_batch_failed (sample_pylint ["core/a.py"]))
             (batches (files_to_lint_for_python3_compatibility
                         (files_to_lint (self w))))
        then py3_failed_line
        else py3_success_line
               (List.length (files_to_lint_for_python3_compatibility
                               (files_to_lint (self w)))) "0.1"].
Proof.
  intros w. split; [discriminate|]. split; [discriminate|].
  apply (py3_messages_are_buffer_snapshots (sample_pylint ["core/a.py"]) "0.1" w);
    discriminate.
Defined.

(** ** Which streams the operations write *)

Module Frames.
Import Batching Loops Runs.

Section FrameFacts.

Variable pylint_Run : list string -> Z * string.
Variable pycodestyle_Check : string -> list string -> nat * string.
Variable isort_Check : string -> bool * string.

Ltac run_monad :=
  unfold bind, ret, redirect_stdout, lint_Run, pycodestyle_check_files,
    isort_SortImports, log_call, get_sys_stdout, set_sys_stdout, getvalue,
    PRINT, write in *;
  cbn [fst snd engine_log self sys_stdout streams next_stream] in *.

Ltac close_frame Hk :=
  rewrite Hk;
  match goal with
  | H1 : ?k <> ?a, H2 : ?k <> ?b |- _ =>
      pose proof (proj2 (Nat.eqb_neq k a) H1);
      pose proof (proj2 (Nat.eqb_neq k b) H2)
  end;
  cbn [streams]; unfold update_stream;
  repeat match goal with
         | H : Nat.eqb _ _ = false |- _ => rewrite H
         end; reflexivity.

Lemma lint_py_files_loop_frame fuel : forall files verbose cp cc stdout start
    msgs errs w r w',
  lint_py_files_loop pylint_Run pycodestyle_Check fuel files verbose cp cc
    stdout start msgs errs w = (r, w') ->
  sys_stdout w' = sys_stdout w /\ next_stream w' = next_stream w
  /\ forall k, k <> stdout -> k <> sys_stdout w -> streams w' k = streams w k.
Proof.
  induction fuel as [|fuel IH];
    intros files verbose cp cc stdout start msgs errs w r w' E.
  - cbn in E. injection E as <- <-. auto.
  - cbn [lint_py_files_loop] in E.
    destruct (Nat.ltb start (List.length files)) eqn:Hlt.
    2:{ injection E as <- <-. auto. }
    set (e := Nat.min (start + _batch_size) (List.length files)) in *.
    set (b := py_slice files start e) in *.
    destruct (pylint_Run (b ++ [cp])) as [st out] eqn:Hp.
    destruct (pycodestyle_Check cc b) as [count out2] eqn:Hc.
    destruct verbose; run_monad; rewrite ?Hp, ?Hc in E; cbn in E;
    destruct (negb (st =? 0)%Z || negb (Nat.eqb count 0));
    cbn in E; destruct (IH _ _ _ _ _ _ _ _ _ _ _ E) as (Hout & Hnext & Hk);
    cbn [sys_stdout next_stream] in Hout, Hnext, Hk;
    (split; [exact Hout|]); (split; [exact Hnext|]);
    intros k Hk1 Hk2; close_frame (Hk k Hk1 Hk2).
Qed.

Lemma py3_loop_frame fuel : forall files verbose stdout start msgs errs w r w',
  py3_loop pylint_Run fuel files verbose stdout start msgs errs w = (r, w') ->
  sys_stdout w' = sys_stdout w /\ next_stream w' = next_stream w
  /\ forall k, k <> stdout -> k <> sys_stdout w -> streams w' k = streams w k.
Proof.
  induction fuel as [|fuel IH];
    intros files verbose stdout start msgs errs w r w' E.
  - cbn in E. injection E as <- <-. auto.
  - cbn [py3_loop] in E.
    destruct (Nat.ltb start (List.length files)) eqn:Hlt.
    2:{ injection E as <- <-. auto. }
    set (e := Nat.min (start + _batch_size) (List.length files)) in *.
    set (b := py_slice files start e) in *.
    destruct (pylint_Run (b ++ ["--py3k"])) as [st out] eqn:Hp.
    destruct verbose; run_monad; rewrite ?Hp in E; cbn in E;
    destruct (negb (st =? 0)%Z);
    cbn in E; destruct (IH _ _ _ _ _ _ _ _ _ E) as (Hout & Hnext & Hk);
    cbn [sys_stdout next_stream] in Hout, Hnext, Hk;
    (split; [exact Hout|]); (split; [exact Hnext|]);
    intros k Hk1 Hk2; close_frame (Hk k Hk1 Hk2).
Qed.

Lemma import_order_loop_frame files : forall failed w r w',
  import_order_loop isort_Check files failed w = (r, w') ->
  next_stream w' = next_stream w
  /\ forall k, k <> sys_stdout w -> streams w' k = streams w k.
Proof.
  induction files as [|f files IH]; intros failed w r w' E.
  - cbn in E. injection E as <- <-. auto.
  - cbn [import_order_loop] in E.
    destruct (isort_Check f) as [inc out] eqn:Hi.
    run_monad; rewrite Hi in E; cbn in E.
    destruct inc; cbn in E; destruct (IH _ _ _ _ E) as (Hnext & Hk);
      cbn [sys_stdout next_stream] in Hnext, Hk;
      (split; [exact Hnext|]);
      intros k Hk1; rewrite (Hk k Hk1);
      pose proof (proj2 (Nat.eqb_neq _ _) Hk1) as Hb;
      cbn [streams]; unfold update_stream; rewrite ?Hb; reflexivity.
Qed.

End FrameFacts.
End Frames.

Module RunFrames.
Import Frames.

Section RunFrameFacts.

Variable pylint_Run : list string -> Z * string.
Variable pycodestyle_Check : string -> list string -> nat * string.
Variable isort_Check : string -> bool * string.
Variable elapsed_secs : string.
Variable cwd : string.

Ltac eqb_facts :=
  repeat match goal with
         | H : ?a <> ?b |- _ =>
             match goal with
             | _ : Nat.eqb a b = false |- _ => fail 1
             | _ => pose proof (proj2 (Nat.eqb_neq a b) H)
             end
         end.

Lemma lint_py_files_frame cp cc w :
  keeps_other_streams
    (_lint_py_files pylint_Run pycodestyle_Check elapsed_secs cp cc) w.
Proof.
  unfold keeps_other_streams, _lint_py_files, bind, get_self, string_io,
    PRINT, write, ret.
  cbn [fst snd self engine_log streams sys_stdout next_stream].
  match goal with
  | |- context [lint_py_files_loop ?a ?b ?c ?d ?e ?f ?g ?h ?i ?j ?k ?wl] =>
      destruct (lint_py_files_loop a b c d e f g h i j k wl) as [res wl'] eqn:E
  end.
  apply lint_py_files_loop_frame in E as (Ho & Hn & Hk).
  cbn [fst snd self engine_log streams sys_stdout next_stream] in *.
  rewrite Ho. split; [reflexivity|]. split; [lia|].
  intros k Hlt Hne.
  assert (Hne2 : k <> next_stream w) by lia.
  eqb_facts. unfold update_stream.
  repeat match goal with H : Nat.eqb _ _ = false |- _ => rewrite H end.
  rewrite Hk by assumption. unfold update_stream.
  repeat match goal with H : Nat.eqb _ _ = false |- _ => rewrite H end.
  reflexivity.
Qed.

Lemma py3_frame w :
  keeps_other_streams
    (_lint_py_files_for_python3_compatibility pylint_Run elapsed_secs) w.
Proof.
  unfold keeps_other_streams, _lint_py_files_for_python3_compatibility, bind,
    get_self, string_io, PRINT, write, ret.
  cbn [fst snd self engine_log streams sys_stdout next_stream].
  destruct (files_to_lint_for_python3_compatibility (files_to_lint (self w)))
    as [|f0 rest] eqn:Hf3.
  - cbn. split; [reflexivity|]. split; [lia|].
    intros k Hlt Hne.
    assert (Hne2 : k <> next_stream w) by lia.
    eqb_facts. unfold update_stream.
    repeat match goal with H : Nat.eqb _ _ = false |- _ => rewrite H end.
    reflexivity.
  - match goal with
    | |- context [py3_loop ?a ?b ?c ?d ?e ?f ?g ?h ?wl] =>
        destruct (py3_loop a b c d e f g h wl) as [res wl'] eqn:E
    end.
    apply py3_loop_frame in E as (Ho & Hn & Hk).
    cbn [fst snd self engine_log streams sys_stdout next_stream] in *.
    rewrite Ho. split; [reflexivity|]. split; [lia|].
    intros k Hlt Hne.
    assert (Hne2 : k <> next_stream w) by lia.
    eqb_facts. unfold update_stream.
    repeat match goal with H : Nat.eqb _ _ = false |- _ => rewrite H end.
    rewrite Hk by assumption. unfold update_stream.
    repeat match goal with H : Nat.eqb _ _ = false |- _ => rewrite H end.
    reflexivity.
Qed.

Lemma check_import_order_frame w :
  keeps_other_streams (_check_import_order isort_Check) w.
Proof.
  unfold keeps_other_streams, _check_import_order, redirect_stdout,
    get_sys_stdout, set_sys_stdout, PRINT, write, get_self, bind, ret.
  destruct (verbose_mode_enabled (self w));
  cbn [fst snd self engine_log streams sys_stdout next_stream];
  match goal with
  | |- context [import_order_loop ?a ?b ?c ?wl] =>
      destruct (import_order_loop a b c wl) as [failed wl'] eqn:E
  end;
  pose proof E as E';
  apply import_order_loop_frame in E as (Hn & Hk);
  apply import_order_loop_spec in E' as (_ & _ & Ho & _);
  cbn [fst snd self engine_log streams sys_stdout next_stream] in *;
  destruct failed; cbn [fst snd sys_stdout next_stream streams];
  (split; [reflexivity|]); (split; [lia|]);
  intros k Hlt Hne; eqb_facts; unfold update_stream; rewrite ?Ho;
  repeat match goal with H : Nat.eqb _ _ = false |- _ => rewrite H end;
  rewrite Hk by assumption; unfold update_stream;
  repeat match goal with H : Nat.eqb _ _ = false |- _ => rewrite H end;
  reflexivity.
Qed.

Lemma no_files_frame w :
  keeps_other_streams
    (PRINT "" ;;; PRINT "There are no Python files to lint." ;;;
     ret (@nil string)) w.
Proof.
  unfold keeps_other_streams, PRINT, write, bind, ret.
  cbn [fst snd self engine_log streams sys_stdout next_stream].
  split; [reflexivity|]. split; [lia|].
  intros k Hlt Hne. eqb_facts. unfold update_stream.
  repeat match goal with H : Nat.eqb _ _ = false |- _ => rewrite H end.
  reflexivity.
Qed.

Lemma keeps_other_streams_seq {A B} (op1 : M A) (op2 : A -> M B) w :
  keeps_other_streams op1 w ->
  keeps_other_streams (op2 (fst (op1 w))) (snd (op1 w)) ->
  keeps_other_streams (bind op1 op2) w.
Proof.
  unfold keeps_other_streams, bind.
  destruct (op1 w) as [a w1]. cbn [fst snd].
  intros (Ho1 & Hn1 & Hk1) (Ho2 & Hn2 & Hk2).
  split; [congruence|]. split; [lia|].
  intros k Hlt Hne. rewrite Hk2 by (lia || congruence). apply Hk1; assumption.
Qed.

Lemma python_perform_all_frame w :
  keeps_other_streams
    (PythonLintChecksManager_perform_all_lint_checks isort_Check) w.
Proof.
  unfold PythonLintChecksManager_perform_all_lint_checks.
  apply keeps_other_streams_seq.
  - unfold keeps_other_streams, get_self. cbn. split; [reflexivity|].
    split; [lia|]. reflexivity.
  - unfold get_self. cbn [fst snd].
    destruct (files_to_lint (self w)).
    + apply no_files_frame.
    + apply check_import_order_frame.
Qed.

Lemma third_party_perform_all_frame w :
  keeps_other_streams
    (ThirdPartyPythonLintChecksManager_perform_all_lint_checks pylint_Run
       pycodestyle_Check elapsed_secs cwd) w.
Proof.
  unfold ThirdPartyPythonLintChecksManager_perform_all_lint_checks.
  apply keeps_other_streams_seq.
  - unfold keeps_other_streams, get_self. cbn. split; [reflexivity|].
    split; [lia|]. reflexivity.
  - unfold get_self. cbn [fst snd].
    destruct (files_to_lint (self w)).
    + apply no_files_frame.
    + apply keeps_other_streams_seq; [apply lint_py_files_frame|].
      apply keeps_other_streams_seq; [apply py3_frame|].
      unfold keeps_other_streams, ret. cbn. split; [reflexivity|].
      split; [lia|]. reflexivity.
Qed.

End RunFrameFacts.
End RunFrames.

Import RunFrames.

(** Every lint operation leaves [sys.stdout] pointing where it pointed
    before (the redirections are undone), never frees a stream, and writes
    no stream that existed before the call other than the one [sys.stdout]
    points to: the capture buffers are always fresh streams. *)
Theorem lint_operations_keep_other_streams
    (pylint_Run : list string -> Z * string)
    (pycodestyle_Check : string -> list string -> nat * string)
    (isort_Check : string -> bool * string)
    (elapsed_secs cwd cp cc : string) (w : World) :
  keeps_other_streams
    (_lint_py_files pylint_Run pycodestyle_Check elapsed_secs cp cc) w
  /\ keeps_other_streams
       (_lint_py_files_for_python3_compatibility pylint_Run elapsed_secs) w
  /\ keeps_other_streams (_check_import_order isort_Check) w
  /\ keeps_other_streams
       (PythonLintChecksManager_perform_all_lint_checks isort_Check) w
  /\ keeps_other_streams
       (ThirdPartyPythonLintChecksManager_perform_all_lint_checks pylint_Run
          pycodestyle_Check elapsed_secs cwd) w.
Proof.
  split; [apply lint_py_files_frame|].
  split; [apply py3_frame|].
  split; [apply check_import_order_frame|].
  split; [apply python_perform_all_frame | apply third_party_perform_all_frame].
Qed.



(** [_lint_py_files] called on an empty list (which
    [perform_all_lint_checks] never does) calls no engine and reports
    success for 0 files. *)
Theorem lint_py_files_empty_reports_success
    (pylint_Run : list string -> Z * string)
    (pycodestyle_Check : string -> list string -> nat * string)
    (elapsed_secs cp cc : string) (w : World) :
  files_to_lint (self w) = [] ->
  let r := _lint_py_files pylint_Run pycodestyle_Check elapsed_secs cp cc w in
  fst r = [lint_success_line 0 elapsed_secs]
  /\ engine_log (snd r) = engine_log w.
Proof.
  intros Hf r.
  destruct (lint_py_files_spec pylint_Run pycodestyle_Check elapsed_secs cp cc w)
    as (Hlog & _ & retained & Hret & Hlen).
  fold r in Hlog, Hret, Hlen. rewrite Hf in Hlog, Hret, Hlen.
  change (batches []) with (@nil (list string)) in Hlog, Hret, Hlen.
  cbn [flat_map filter existsb List.length] in Hlog, Hret, Hlen.
  destruct retained; [|discriminate Hlen].
  rewrite Hret, Hlog, app_nil_r. split; reflexivity.
Qed.

Lemma lint_py_files_empty_reports_success_witness :
  files_to_lint (self (initial_world [] true)) = [] /\
  (let r := _lint_py_files (sample_pylint []) sample_pycodestyle "0.0"
              "--rcfile=.pylintrc" "tox.ini" (initial_world [] true) in
   fst r = [lint_success_line 0 "0.0"]
   /\ engine_log (snd r) = engine_log (initial_world [] true)).
Proof.
  split; [reflexivity|].
  apply (lint_py_files_empty_reports_success (sample_pylint []) sample_pycodestyle
           "0.0" "--rcfile=.pylintrc" "tox.ini" (initial_world [] true)).
  reflexivity.
Defined.

(** [_check_import_order] called on an empty list calls isort on nothing
    and reports that the import order checks passed. *)
Theorem check_import_order_empty_passes
    (isort_Check : string -> bool * string) (w : World) :
  files_to_lint (self w) = [] ->
  let r := _check_import_order isort_Check w in
  fst r = [import_order_success_line] /\ engine_log (snd r) = engine_log w.
Proof.
  intros Hf r.
  destruct (check_import_order_spec isort_Check w) as (Hret & Hlog & _).
  fold r in Hret, Hlog. rewrite Hf in Hret, Hlog. cbn [existsb map] in Hret, Hlog.
  rewrite Hret, Hlog, app_nil_r. split; reflexivity.
Qed.

Lemma check_import_order_empty_passes_witness :
  files_to_lint (self (initial_world [] false)) = [] /\
  (let r := _check_import_order (sample_isort []) (initial_world [] false) in
   fst r = [import_order_success_line]
   /\ engine_log (snd r) = engine_log (initial_world [] false)).
Proof.
  split; [reflexivity|].
  apply (check_import_order_empty_passes (sample_isort []) (initial_world [] false)).
  reflexivity.
Defined.

(** The Python 3 check cuts the files left after the exclusion into
    batches of 1 to 50 files that concatenate to that list in order, one
    pylint call per batch, ceil(n / 50) calls for n such files. *)
Theorem py3_batches_partition
    (pylint_Run : list string -> Z * string) (elapsed_secs : string)
    (w : World) :
  let w' := snd (_lint_py_files_for_python3_compatibility pylint_Run
                   elapsed_secs w) in
  let files3 := files_to_lint_for_python3_compatibility (files_to_lint (self w)) in
  exists bs : list (list string),
    engine_log w' =
      engine_log w ++ map (fun b => PylintRun (b ++ ["--py3k"])) bs
    /\ List.concat bs = files3
    /\ Forall (fun b => 1 <= List.length b <= _batch_size) bs
    /\ List.length bs = (List.length files3 + _batch_size - 1) / _batch_size.
Proof.
  intros w' files3.
  destruct (py3_spec pylint_Run elapsed_secs w) as (_ & Hempty & Hne).
  fold w' files3 in Hempty, Hne.
  exists (batches files3).
  split; [|split; [apply batches_concat|split; [apply batches_sizes|apply batches_length]]].
  destruct files3 as [|f rest] eqn:Hf.
  - rewrite (proj2 (Hempty eq_refl)). cbn. rewrite app_nil_r. reflexivity.
  - rewrite <- Hf in Hne |- *. apply Hne. rewrite Hf. discriminate.
Qed.

(** The module-level [sys.path.insert(1, path)] loop: the first entry of
    [sys.path] stays first, the three tool paths follow it in the reverse
    order of [_PATHS_TO_INSERT] (so the quotes plugin is searched first),
    and the old entries after the first keep their order behind them.  On
    an empty [sys.path] the first insertion appends. *)
Theorem insert_tool_paths_after_first_entry
    (PYLINT_PATH PYCODESTYLE_PATH PYLINT_QUOTES_PATH : string)
    (sys_path : list string) :
  insert_tool_paths PYLINT_PATH PYCODESTYLE_PATH PYLINT_QUOTES_PATH sys_path =
  match sys_path with
  | [] => [PYLINT_PATH; PYLINT_QUOTES_PATH; PYCODESTYLE_PATH]
  | p0 :: rest => p0 :: PYLINT_QUOTES_PATH :: PYCODESTYLE_PATH :: PYLINT_PATH :: rest
  end.
Proof. destruct sys_path; reflexivity. Qed.

Module Console.
Import Loops.

Section ConsoleFacts.

Variable pylint_Run : list string -> Z * string.
Variable pycodestyle_Check : string -> list string -> nat * string.

Ltac run_monad :=
  unfold bind, ret, redirect_stdout, lint_Run, pycodestyle_check_files,
    log_call, get_sys_stdout, set_sys_stdout, getvalue, PRINT, write in *;
  cbn [fst snd engine_log self sys_stdout streams next_stream] in *.

Lemma printed_lines_app l1 l2 :
  printed_lines (l1 ++ l2) = String.append (printed_lines l1) (printed_lines l2).
Proof.
  induction l1 as [|m l1 IH]; cbn; [reflexivity|].
  rewrite IH, <- !str_app_assoc. reflexivity.
Qed.

Lemma lint_py_files_loop_console fuel : forall files cp cc stdout start
    msgs errs w r w',
  lint_py_files_loop pylint_Run pycodestyle_Check fuel files false cp cc
    stdout start msgs errs w = (r, w') ->
  stdout <> sys_stdout w ->
  exists new, fst r = msgs ++ new
    /\ streams w' (sys_stdout w) =
       String.append (streams w (sys_stdout w)) (printed_lines new).
Proof.
  induction fuel as [|fuel IH];
    intros files cp cc stdout start msgs errs w r w' E Hne.
  - cbn in E. injection E as <- <-. exists []. cbn.
    rewrite app_nil_r, str_app_nil. split; reflexivity.
  - cbn [lint_py_files_loop] in E.
    destruct (Nat.ltb start (List.length files)) eqn:Hlt.
    2:{ injection E as <- <-. exists []. cbn.
        rewrite app_nil_r, str_app_nil. split; reflexivity. }
    set (e := Nat.min (start + _batch_size) (List.length files)) in *.
    set (b := py_slice files start e) in *.
    destruct (pylint_Run (b ++ [cp])) as [st out] eqn:Hp.
    destruct (pycodestyle_Check cc b) as [count out2] eqn:Hc.
    pose proof Hne as Hneqb. apply Nat.eqb_neq in Hneqb.
    assert (Hneqb' : Nat.eqb (sys_stdout w) stdout = false)
      by (apply Nat.eqb_neq; congruence).
    run_monad; rewrite ?Hp, ?Hc in E; cbn in E;
    destruct (negb (st =? 0)%Z || negb (Nat.eqb count 0)) eqn:Hf;
    cbn in E; destruct (IH _ _ _ _ _ _ _ _ _ _ E Hne) as (new & Hret & Hout);
    cbn [streams sys_stdout] in Hout; unfold update_stream in Hout;
    rewrite ?Nat.eqb_refl, ?Hneqb, ?Hneqb' in Hout; cbn [fst snd] in Hret.
    + unfold update_stream in Hret. rewrite ?Nat.eqb_refl in Hret.
      rewrite <- app_assoc in Hret.
      eexists. split; [exact Hret|].
      rewrite Hout. cbn [app printed_lines]. unfold nl, newline.
      rewrite <- !str_app_assoc. reflexivity.
    + exists new. split; [exact Hret|]. exact Hout.
Qed.

Lemma py3_loop_console fuel : forall files stdout start msgs errs w r w',
  py3_loop pylint_Run fuel files false stdout start msgs errs w = (r, w') ->
  stdout <> sys_stdout w ->
  exists new, fst r = msgs ++ new
    /\ streams w' (sys_stdout w) =
       String.append (streams w (sys_stdout w)) (printed_lines new).
Proof.
  induction fuel as [|fuel IH];
    intros files stdout start msgs errs w r w' E Hne.
  - cbn in E. injection E as <- <-. exists []. cbn.
    rewrite app_nil_r, str_app_nil. split; reflexivity.
  - cbn [py3_loop] in E.
    destruct (Nat.ltb start (List.length files)) eqn:Hlt.
    2:{ injection E as <- <-. exists []. cbn.
        rewrite app_nil_r, str_app_nil. split; reflexivity. }
    set (e := Nat.min (start + _batch_size) (List.length files)) in *.
    set (b := py_slice files start e) in *.
    destruct (pylint_Run (b ++ ["--py3k"])) as [st out] eqn:Hp.
    pose proof Hne as Hneqb. apply Nat.eqb_neq in Hneqb.
    assert (Hneqb' : Nat.eqb (sys_stdout w) stdout = false)
      by (apply Nat.eqb_neq; congruence).
    run_monad; rewrite ?Hp in E; cbn in E;
    destruct (negb (st =? 0)%Z) eqn:Hf;
    cbn in E; destruct (IH _ _ _ _ _ _ _ _ E Hne) as (new & Hret & Hout);
    cbn [streams sys_stdout] in Hout; unfold update_stream in Hout;
    rewrite ?Nat.eqb_refl, ?Hneqb, ?Hneqb' in Hout; cbn [fst snd] in Hret.
    + unfold update_stream in Hret. rewrite ?Nat.eqb_refl in Hret.
      rewrite <- app_assoc in Hret.
      eexists. split; [exact Hret|].
      rewrite Hout. cbn [app printed_lines]. unfold nl, newline.
      rewrite <- !str_app_assoc. reflexivity.
    + exists new. split; [exact Hret|]. exact Hout.
Qed.

End ConsoleFacts.
End Console.

Import Console.

(** In non-verbose mode, what [_lint_py_files] prints to [sys.stdout] is
    the line "Linting N Python files", then every summary message it
    returns (the reports of the failing batches and the verdict), one per
    line, then "Python linting finished."; the output of pylint and
    pycodestyle reaches [sys.stdout] only inside those reports. *)
Theorem lint_py_files_console_transcript
    (pylint_Run : list string -> Z * string)
    (pycodestyle_Check : string -> list string -> nat * string)
    (elapsed_secs cp cc : string) (w : World) :
  verbose_mode_enabled (self w) = false ->
  sys_stdout w <> next_stream w ->
  let r := _lint_py_files pylint_Run pycodestyle_Check elapsed_secs cp cc w in
  streams (snd r) (sys_stdout w) =
    String.append (streams w (sys_stdout w))
      (printed_lines
         (String.append "Linting "
            (String.append (str_of_nat (List.length (files_to_lint (self w))))
               " Python files")
          :: fst r ++ ["Python linting finished."])).
Proof.
  intros Hv Hne r. subst r.
  unfold _lint_py_files, bind, get_self, string_io, PRINT, write, ret.
  cbn [fst snd self engine_log streams sys_stdout next_stream].
  rewrite Hv.
  match goal with
  | |- context [lint_py_files_loop ?a ?b ?c ?d ?e ?f ?g ?h ?i ?j ?k ?wl] =>
      destruct (lint_py_files_loop a b c d e f g h i j k wl) as [res wl'] eqn:E
  end.
  pose proof E as E'.
  apply Frames.lint_py_files_loop_frame in E' as (Ho & _ & _).
  destruct (lint_py_files_loop_console pylint_Run pycodestyle_Check
              _ _ _ _ _ _ _ _ _ _ _ E ltac:(cbn; congruence))
    as (new & Hret & Hout).
  cbn [fst snd streams sys_stdout] in Ho, Hret, Hout |- *.
  assert (Hb : Nat.eqb (sys_stdout w) (next_stream w) = false)
    by (apply Nat.eqb_neq; exact Hne).
  rewrite Ho. unfold update_stream in Hout |- *.
  rewrite ?Nat.eqb_refl, ?Hb in Hout |- *.
  rewrite Hout, Hret, ?Hb. cbn [printed_lines app]. rewrite !printed_lines_app.
  cbn [printed_lines]. unfold nl, newline. rewrite ?str_app_nil.
  rewrite <- !str_app_assoc. reflexivity.
Qed.

Lemma lint_py_files_console_transcript_witness :
  let w := initial_world (sample_files 2) false in
  verbose_mode_enabled (self w) = false /\ sys_stdout w <> next_stream w /\
  (let r := _lint_py_files (sample_pylint ["f1.py"]) sample_pycodestyle "0.2"
              "--rcfile=.pylintrc" "tox.ini" w in
   streams (snd r) (sys_stdout w) =
     String.append (streams w (sys_stdout w))
       (printed_lines
          (String.append "Linting "
             (String.append (str_of_nat (List.length (files_to_lint (self w))))
                " Python files")
           :: fst r ++ ["Python linting finished."]))).
Proof.
  intros w. split; [reflexivity|]. split; [discriminate|].
  apply (lint_py_files_console_transcript (sample_pylint ["f1.py"])
           sample_pycodestyle "0.2" "--rcfile=.pylintrc" "tox.ini" w);
    [reflexivity | discriminate].
Defined.

(** In non-verbose mode, what the Python 3 check prints to [sys.stdout]:
    when no file is left after the exclusion, an empty line and "There are
    no Python files to lint for Python 3 compatibility."; otherwise the
    line "Linting N Python files for Python 3 compatibility.", every
    summary message it returns, one per line, and the closing line.  The
    "Messages for Python 3 support:" headers and pylint's output reach
    [sys.stdout] only inside those messages. *)
Theorem py3_console_transcript
    (pylint_Run : list string -> Z * string) (elapsed_secs : string)
    (w : World) :
  verbose_mode_enabled (self w) = false ->
  sys_stdout w <> next_stream w ->
  let files3 := files_to_lint_for_python3_compatibility (files_to_lint (self w)) in
  let r := _lint_py_files_for_python3_compatibility pylint_Run elapsed_secs w in
  streams (snd r) (sys_stdout w) =
    String.append (streams w (sys_stdout w))
      (printed_lines
         match files3 with
         | [] => [""; "There are no Python files to lint for Python 3 compatibility."]
         | _ =>
             String.append "Linting "
               (String.append (str_of_nat (List.length files3))
                  " Python files for Python 3 compatibility.")
             :: fst r ++ ["Python linting for Python 3 compatibility finished."]
         end).
Proof.
  intros Hv Hne files3 r. subst r.
  unfold _lint_py_files_for_python3_compatibility, bind, get_self, string_io,
    PRINT, write, ret.
  cbn [fst snd self engine_log streams sys_stdout next_stream].
  fold files3. rewrite Hv.
  assert (Hb : Nat.eqb (sys_stdout w) (next_stream w) = false)
    by (apply Nat.eqb_neq; exact Hne).
  destruct files3 as [|f0 rest] eqn:Hf3.
  - cbn [fst snd streams sys_stdout printed_lines]. unfold update_stream.
    rewrite ?Nat.eqb_refl, ?Hb. unfold nl, newline.
    rewrite ?str_app_nil, <- !str_app_assoc. reflexivity.
  - rewrite <- Hf3.
    match goal with
    | |- context [py3_loop ?a ?b ?c ?d ?e ?f ?g ?h ?wl] =>
        destruct (py3_loop a b c d e f g h wl) as [res wl'] eqn:E
    end.
    pose proof E as E'.
    apply Frames.py3_loop_frame in E' as (Ho & _ & _).
    destruct (py3_loop_console pylint_Run _ _ _ _ _ _ _ _ _ E
                ltac:(cbn; congruence)) as (new & Hret & Hout).
    cbn [fst snd streams sys_stdout] in Ho, Hret, Hout |- *.
    rewrite Ho. unfold update_stream in Hout |- *.
    rewrite ?Nat.eqb_refl, ?Hb in Hout |- *.
    rewrite Hout, Hret, ?Hb. cbn [printed_lines app].
    rewrite !printed_lines_app.
    cbn [printed_lines]. unfold nl, newline. rewrite ?str_app_nil.
    rewrite <- !str_app_assoc. reflexivity.
Qed.

Lemma py3_console_transcript_witness :
  let w := initial_world ["core/a.py"; "python_utils.py"] false in
  verbose_mode_enabled (self w) = false /\ sys_stdout w <> next_stream w /\
  (let files3 := files_to_lint_for_python3_compatibility (files_to_lint (self w)) in
   let r := _lint_py_files_for_python3_compatibility (sample_pylint ["core/a.py"])
              "0.3" w in
   streams (snd r) (sys_stdout w) =
     String.append (streams w (sys_stdout w))
       (printed_lines
          match files3 with
          | [] => [""; "There are no Python files to lint for Python 3 compatibility."]
          | _ =>
              String.append "Linting "
                (String.append (str_of_nat (List.length files3))
                   " Python files for Python 3 compatibility.")
              :: fst r ++ ["Python linting for Python 3 compatibility finished."]
          end)).
Proof.
  intros w. split; [reflexivity|]. split; [discriminate|].
  apply (py3_console_transcript (sample_pylint ["core/a.py"]) "0.3" w);
    [reflexivity | discriminate].
Defined.
